(** * District information chatbot (src/chatbot.py): retrieval and response

    A shallow embedding of the retrieval-and-response pipeline of
    [chatbot.py]: the text projector [data_to_text], the retriever
    [retrieve_documents], the response composer [generate_response] and the
    [/chat] handler, followed by the properties of the specification that
    concern them.

    Conventions.
    - A Python [str] is a Rocq [string], read as a sequence of code points
      below 256; [py_lower] and [py_isspace] agree with CPython on that range.
    - A Python [dict] with string keys is a [gmap string _].
    - A raised exception is the [Raise] constructor of [result].
    - The embedding model and the FAISS index are opaque capabilities, passed
      as functions; [str] and [float] on Python floats, and the order of
      distances, are type classes. *)

From Stdlib Require Import Ascii String ZArith QArith Lia List Bool.
From stdpp Require Import gmap strings list pretty.

(** ** Exceptions and results *)

Inductive exn : Type :=
  | ValueError (msg : string)
  | KeyError (key : string)
  | IndexError
  | AttributeError (msg : string)
  | CapabilityError (msg : string).

Inductive result (A : Type) : Type :=
  | Ok (a : A)
  | Raise (e : exn).

Arguments Ok {A} a.
Arguments Raise {A} e.

(** The error monad, with stdpp's [x ← m; k] notation. *)
Global Instance result_ret : MRet result := fun A a => Ok a.
Global Instance result_bind : MBind result := fun A B k m =>
  match m with
  | Ok a => k a
  | Raise e => Raise e
  end.

Definition is_ok {A : Type} (m : result A) : bool :=
  match m with Ok _ => true | Raise _ => false end.

(** ** Python string primitives *)

Module PyStr.

(** [c.isspace()] for a code point below 256: TAB..CR, FS..US, space,
    NEL (0x85) and NBSP (0xA0). *)
Definition py_isspace (c : ascii) : bool :=
  let n := N_of_ascii c in
  ((9 <=? n) && (n <=? 13) || (28 <=? n) && (n <=? 32)
   || (n =? 133) || (n =? 160))%N.

(** [c.lower()] for a code point below 256: A..Z and the Latin-1 capitals
    0xC0..0xDE (except the multiplication sign 0xD7) move up by 32. *)
Definition py_lower_char (c : ascii) : ascii :=
  let n := N_of_ascii c in
  if ((65 <=? n) && (n <=? 90)
      || (192 <=? n) && (n <=? 222) && negb (n =? 215))%N
  then ascii_of_N (n + 32) else c.

(** [s.lower()] *)
Fixpoint py_lower (s : string) : string :=
  match s with
  | EmptyString => EmptyString
  | String c s' => String (py_lower_char c) (py_lower s')
  end.

(** [s.lstrip()] *)
Fixpoint py_lstrip (s : string) : string :=
  match s with
  | EmptyString => EmptyString
  | String c s' => if py_isspace c then py_lstrip s' else s
  end.

(** [s.rstrip()] *)
Fixpoint py_rstrip (s : string) : string :=
  match s with
  | EmptyString => EmptyString
  | String c s' =>
      match py_rstrip s' with
      | EmptyString => if py_isspace c then EmptyString else String c EmptyString
      | t => String c t
      end
  end.

(** [s.strip()] *)
Definition py_strip (s : string) : string := py_rstrip (py_lstrip s).

(** [needle in hay] *)
Fixpoint py_in (needle hay : string) : bool :=
  String.prefix needle hay ||
  match hay with
  | EmptyString => false
  | String _ hay' => py_in needle hay'
  end.

(** [s[n:]] *)
Fixpoint drop_chars (n : nat) (s : string) : string :=
  match n, s with
  | O, _ => s
  | S n', String _ s' => drop_chars n' s'
  | S _, EmptyString => EmptyString
  end.

(** [s.partition(sep)] without the separator: the text before and after the
    leftmost occurrence of [sep], or [None] when there is none. *)
Fixpoint find_sep (sep s : string) : option (string * string) :=
  if String.prefix sep s then Some (EmptyString, drop_chars (String.length sep) s)
  else match s with
       | EmptyString => None
       | String c s' =>
           match find_sep sep s' with
           | Some (before, after) => Some (String c before, after)
           | None => None
           end
       end.

(** [s.split(sep, maxsplit)] for a non-empty [sep] and [maxsplit >= 0]: cut
    at the leftmost occurrence, at most [maxsplit] times. *)
Fixpoint py_split_max (maxsplit : nat) (sep s : string) : list string :=
  match maxsplit with
  | O => [s]
  | S m =>
      match find_sep sep s with
      | None => [s]
      | Some (before, after) => before :: py_split_max m sep after
      end
  end.

(** [s.split(sep)]: no bound on the number of cuts; a string of length [n]
    holds at most [n] occurrences of a non-empty separator. *)
Definition py_split (sep s : string) : list string :=
  py_split_max (String.length s) sep s.

(** [sep.join(parts)] *)
Fixpoint py_join (sep : string) (parts : list string) : string :=
  match parts with
  | [] => EmptyString
  | [p] => p
  | p :: rest => p +:+ sep +:+ py_join sep rest
  end.

(** [s.replace(old, new)] for a non-empty [old]: every occurrence, leftmost
    first and without overlap, which is [new.join(s.split(old))]. *)
Definition py_replace (old new s : string) : string :=
  py_join new (py_split old s).

(** [x in xs] for a list of strings *)
Definition py_in_list (x : string) (xs : list string) : bool :=
  existsb (String.eqb x) xs.

End PyStr.
Import PyStr.

(** ** Python values of the dataset *)

(** The two operations the program performs on a Python float: [str(x)]
    (inside the f-string of [data_to_text]) and [float(s)], which raises
    [ValueError] ([None] here) on text that is not a number. *)
Class PyFloat (F : Type) : Type := {
  float_str : F -> string;
  float_of_str : string -> option F
}.

(** The characters [repr] of a float is made of: digits, sign, point,
    exponent mark and the letters of [inf] and [nan]. *)
Definition float_repr_char (c : ascii) : bool :=
  py_in (String c EmptyString) "0123456789+-.einfa".

Fixpoint all_chars (p : ascii -> bool) (s : string) : bool :=
  match s with
  | EmptyString => true
  | String c s' => p c && all_chars p s'
  end.

(** What CPython guarantees of the two: [repr] stays inside its alphabet, and
    reading back what [repr] wrote gives the float. *)
Class PyFloatLaws (F : Type) `{PyFloat F} : Prop := {
  float_str_alphabet : forall x : F, all_chars float_repr_char (float_str x) = true;
  float_of_str_str : forall x : F, float_of_str (float_str x) = Some x
}.

(** A JSON scalar of a dataset entry. *)
Inductive pyval (F : Type) : Type :=
  | PStr (s : string)
  | PInt (z : Z)
  | PFloat (x : F).

Arguments PStr {F} s.
Arguments PInt {F} z.
Arguments PFloat {F} x.

(** [str(v)], as the f-string applies it. *)
Definition py_str `{PyFloat F} (v : pyval F) : string :=
  match v with
  | PStr s => s
  | PInt z => pretty z
  | PFloat x => float_str x
  end.

(** [d[key]] on a dict *)
Definition py_getitem {V : Type} (d : gmap string V) (key : string) : result V :=
  match d !! key with
  | Some v => Ok v
  | None => Raise (KeyError key)
  end.

(** [l[i]] on a list: a negative index counts from the end. *)
Definition py_list_getitem {A : Type} (l : list A) (i : Z) : result A :=
  let n := Z.of_nat (length l) in
  let j := if (i <? 0)%Z then (i + n)%Z else i in
  if ((0 <=? j) && (j <? n))%Z then
    match l !! Z.to_nat j with
    | Some x => Ok x
    | None => Raise IndexError
    end
  else Raise IndexError.

(** The Record of the data model: one district-year-scenario observation. *)
Record district_record (F : Type) : Type := {
  district : string;
  lat : F;
  lon : F;
  year : Z;
  scenario : string;
  population_estimate : Z;
  avg_annual_rainfall_mm : F;
  groundwater_level_m : F
}.

Arguments district {F} _.
Arguments lat {F} _.
Arguments lon {F} _.
Arguments year {F} _.
Arguments scenario {F} _.
Arguments population_estimate {F} _.
Arguments avg_annual_rainfall_mm {F} _.
Arguments groundwater_level_m {F} _.

(** The dict [load_data] hands over for a Record (the [output] mapping). *)
Definition record_dict {F : Type} (r : district_record F) : gmap string (pyval F) :=
  <["district" := PStr (district r)]>
  (<["lat" := PFloat (lat r)]>
  (<["lon" := PFloat (lon r)]>
  (<["year" := PInt (year r)]>
  (<["scenario" := PStr (scenario r)]>
  (<["population_estimate" := PInt (population_estimate r)]>
  (<["avg_annual_rainfall_mm" := PFloat (avg_annual_rainfall_mm r)]>
  (<["groundwater_level_m" := PFloat (groundwater_level_m r)]> ∅))))))).

(** ** Text projector: [data_to_text] *)

Definition data_to_text `{PyFloat F} (data : gmap string (pyval F)) : result string :=
  v_district ← py_getitem data "district";
  v_lat ← py_getitem data "lat";
  v_lon ← py_getitem data "lon";
  v_year ← py_getitem data "year";
  v_scenario ← py_getitem data "scenario";
  v_population ← py_getitem data "population_estimate";
  v_rainfall ← py_getitem data "avg_annual_rainfall_mm";
  v_groundwater ← py_getitem data "groundwater_level_m";
  Ok ("District: " +:+ py_str v_district +:+ ", Latitude: " +:+ py_str v_lat
      +:+ ", Longitude: " +:+ py_str v_lon +:+ ", "
      +:+ "Year: " +:+ py_str v_year +:+ ", Scenario: " +:+ py_str v_scenario
      +:+ ", Population: " +:+ py_str v_population +:+ ", "
      +:+ "Rainfall: " +:+ py_str v_rainfall +:+ " mm, Groundwater Level: "
      +:+ py_str v_groundwater +:+ " m").

(** [texts] of [create_vector_store]: one Canonical Text per entry, in order. *)
Fixpoint project_all `{PyFloat F} (data : list (gmap string (pyval F))) : result (list string) :=
  match data with
  | [] => Ok []
  | entry :: rest =>
      t ← data_to_text entry;
      ts ← project_all rest;
      Ok (t :: ts)
  end.

(** ** Retriever: [retrieve_documents] *)

(** Distances and the threshold are floats; only their order is used. *)
Class Distance (D : Type) : Type := {
  dlt : D -> D -> bool;
  dle : D -> D -> bool;
  d_one : D
}.

(** The one law of float comparison the retriever relies on; it holds for
    IEEE floats, NaN included (every comparison with NaN is false). *)
Class DistanceLaws (D : Type) `{Distance D} : Prop := {
  dlt_dle_trans : forall a b c : D, dlt a b = true -> dle b c = true -> dlt a c = true
}.

(** The list comprehension of [retrieve_documents]: [texts[i]] is evaluated
    only for a candidate whose distance passes the threshold. *)
Fixpoint select_docs `{Distance D} (texts : list string) (threshold : D)
    (candidates : list (Z * D)) : result (list string) :=
  match candidates with
  | [] => Ok []
  | (i, dist) :: rest =>
      if dlt dist threshold then
        doc ← py_list_getitem texts i;
        docs ← select_docs texts threshold rest;
        Ok (doc :: docs)
      else select_docs texts threshold rest
  end.

(** [model] is [model.encode([query])]; [faiss_index] is
    [faiss_index.search(query_embedding, k)], giving the first row of the
    distances and of the indices. Both may raise. The [hasattr] guard has
    nothing to reject here: the index is its search function. *)
Definition retrieve_documents {E : Type} `{Distance D} (query : string)
    (model : string -> result E)
    (faiss_index : E -> Z -> result (list D * list Z))
    (texts : list string) (k : Z) (threshold : D) : result (list string) :=
  query_embedding ← model query;
  '(distances, indices) ← faiss_index query_embedding k;
  valid_docs ← select_docs texts threshold (zip indices distances);
  Ok (match valid_docs with [] => [] | _ => valid_docs end).

(** ** Response composer: [generate_response] *)

(** One item of [chart_data]. *)
Record chart_item (F : Type) : Type := {
  label : string;
  rainfall : F
}.

Arguments label {F} _.
Arguments rainfall {F} _.

(** The part of [chart_config] that depends on the documents: the labels and
    the data of its single dataset. *)
Record chart_config (F : Type) : Type := {
  labels : list string;
  dataset : list F
}.

Arguments labels {F} _.
Arguments dataset {F} _.

(** The six cells of one table row, in column order. *)
Record table_row : Type := {
  td_district : string;
  td_year : string;
  td_scenario : string;
  td_rainfall : string;
  td_groundwater_level : string;
  td_population : string
}.

(** What [generate_response] returns: one of the fixed texts, or the table
    answer with the query it echoes, its rows and the chart if there is one.
    The HTML around the cells and the JSON text of the chart are presentation
    and are not modelled. *)
Inductive response (F : Type) : Type :=
  | Reply (text : string)
  | TableReply (query : string) (rows : list table_row) (chart : option (chart_config F)).

Arguments Reply {F} text.
Arguments TableReply {F} query rows chart.

Definition GREETINGS : list string := ["hi"; "hello"; "hey"].

Definition GREETING_REPLY : string :=
  "Hello! I'm a chatbot that provides district-level groundwater and rainfall data. Try asking something like 'District names'.".

Definition IDENTITY_REPLY : string :=
  "I'm a District Information Chatbot, designed to provide data on districts like rainfall, groundwater levels, and population. Ask me about a specific district or data point, e.g., 'District names'.".

Definition fallback_reply (query : string) : string :=
  "Sorry, I couldn't find relevant data for '" +:+ query
  +:+ "'. Please try a query like 'Ariyalur rainfall in 2020'.".

(** [key, value = part.split(": ", 1)]: unpacking a one-element list raises. *)
Definition parse_part (part : string) : result (string * string) :=
  match py_split_max 1 ": " part with
  | [key; value] => Ok (key, value)
  | _ => Raise (ValueError "not enough values to unpack (expected 2, got 1)")
  end.

(** The inner loop over [doc.split(", ")], filling [fields]. *)
Fixpoint parse_parts (parts : list string) (fields : gmap string string)
    : result (gmap string string) :=
  match parts with
  | [] => Ok fields
  | part :: rest =>
      '(key, value) ← parse_part part;
      parse_parts rest (<[py_replace " " "_" (py_lower key) := value]> fields)
  end.

Definition parse_doc (doc : string) : result (gmap string string) :=
  parse_parts (py_split ", " doc) ∅.

(** The dict appended to [chart_data] for one document. *)
Definition chart_entry `{PyFloat F} (fields : gmap string string) : result (chart_item F) :=
  v_year ← py_getitem fields "year";
  v_scenario ← py_getitem fields "scenario";
  v_rainfall ← py_getitem fields "rainfall";
  match float_of_str (py_replace " mm" "" v_rainfall) with
  | Some x => Ok {| label := v_year +:+ " (" +:+ v_scenario +:+ ")"; rainfall := x |}
  | None => Raise (ValueError "could not convert string to float")
  end.

(** The loop over [retrieved_docs], with its two accumulators. *)
Fixpoint parse_docs `{PyFloat F} (is_ariyalur : bool) (docs : list string)
    (table_rows : list (gmap string string)) (chart_data : list (chart_item F))
    : result (list (gmap string string) * list (chart_item F)) :=
  match docs with
  | [] => Ok (table_rows, chart_data)
  | doc :: rest =>
      fields ← parse_doc doc;
      if is_ariyalur then
        item ← chart_entry fields;
        parse_docs is_ariyalur rest (table_rows ++ [fields]) (chart_data ++ [item])
      else parse_docs is_ariyalur rest (table_rows ++ [fields]) chart_data
  end.

(** The six lookups of one [<tr>] of the table. *)
Definition render_row (row : gmap string string) : result table_row :=
  c_district ← py_getitem row "district";
  c_year ← py_getitem row "year";
  c_scenario ← py_getitem row "scenario";
  c_rainfall ← py_getitem row "rainfall";
  c_groundwater ← py_getitem row "groundwater_level";
  c_population ← py_getitem row "population";
  Ok {| td_district := c_district; td_year := c_year; td_scenario := c_scenario;
        td_rainfall := c_rainfall; td_groundwater_level := c_groundwater;
        td_population := c_population |}.

(** The loop that appends one [<tr>] per entry of [table_rows]. *)
Fixpoint render_rows (table_rows : list (gmap string string)) (done : list table_row)
    : result (list table_row) :=
  match table_rows with
  | [] => Ok done
  | row :: rest =>
      tr ← render_row row;
      render_rows rest (done ++ [tr])
  end.

(** [query.lower().strip()] *)
Definition normalize (query : string) : string := py_strip (py_lower query).

(** The third argument, [data], is not read by the function. *)
Definition generate_response {R : Type} `{PyFloat F} (query : string)
    (retrieved_docs : list string) (data : list R) : result (response F) :=
  let query_lower := normalize query in
  if py_in_list query_lower GREETINGS then Ok (Reply GREETING_REPLY)
  else if String.eqb query_lower "who are you" then Ok (Reply IDENTITY_REPLY)
  else
    match retrieved_docs with
    | [] => Ok (Reply (fallback_reply query))
    | _ :: _ =>
        let is_ariyalur := py_in "ariyalur" query_lower in
        '(table_rows, chart_data) ← parse_docs is_ariyalur retrieved_docs [] [];
        rows ← render_rows table_rows [];
        let chart :=
          if is_ariyalur && negb (bool_decide (chart_data = []))
          then Some {| labels := map label chart_data;
                       dataset := map rainfall chart_data |}
          else None in
        Ok (TableReply query rows chart)
    end.

(** ** The [/chat] handler *)

Definition FORBIDDEN_KEYWORDS : list string :=
  ["jailbreak"; "hack"; "exploit"; "bypass"; "override"; "system prompt";
   "ignore instructions"; "root access"; "admin"; "malicious"; "code injection"].

(** A value of the request body. Of a float the handler reads nothing but
    whether it is zero, which is what [JFloat] carries; NaN and the
    infinities are not zero. A [JDict] lists the items of a dict, whose keys
    are distinct. *)
#[local] Unset Elimination Schemes.
Inductive jvalue : Type :=
  | JNull
  | JBool (b : bool)
  | JInt (z : Z)
  | JFloat (nonzero : bool)
  | JStr (s : string)
  | JList (items : list jvalue)
  | JDict (items : list (string * jvalue)).
#[local] Set Elimination Schemes.

(** [bool(v)] *)
Definition py_truthy (v : jvalue) : bool :=
  match v with
  | JNull => false
  | JBool b => b
  | JInt z => negb (z =? 0)%Z
  | JFloat nonzero => nonzero
  | JStr s => negb (String.eqb s "")
  | JList items => negb (bool_decide (length items = 0))
  | JDict items => negb (bool_decide (length items = 0))
  end.

(** The body of the JSON answer under its [response] key. *)
Inductive payload (F : Type) : Type :=
  | Message (text : string)
  | Composed (r : response F)
  | Failure (e : exn).

Arguments Message {F} text.
Arguments Composed {F} r.
Arguments Failure {F} e.

(** What a request sets in motion, in order: the scan of the query for
    forbidden keywords, the call of [retrieve_documents] and the call of
    [generate_response]. *)
Inductive call : Type :=
  | CheckKeywords (query_lower : string)
  | CallRetriever (query : string)
  | CallComposer (query : string) (docs : list string).

(** What the handler leaves behind: the payload, the HTTP status and the
    calls it made. *)
Record chat_outcome (F : Type) : Type := {
  reply : payload F;
  status : Z;
  calls : list call
}.

Arguments reply {F} _.
Arguments status {F} _.
Arguments calls {F} _.

(** The process-wide state built at start-up. *)
Record chat_context (F E D : Type) : Type := {
  ctx_data : list (gmap string (pyval F));
  ctx_model : string -> result E;
  ctx_faiss_index : E -> Z -> result (list D * list Z);
  ctx_texts : list string
}.

Arguments ctx_data {F E D} _.
Arguments ctx_model {F E D} _.
Arguments ctx_faiss_index {F E D} _.
Arguments ctx_texts {F E D} _.

(** [chat()] on a request whose body is a JSON object, given as the map
    [request_json]. [.get('query')] is [None] for a missing key. A truthy
    query that is not a string has no [lower] method. *)
Definition chat {E : Type} `{PyFloat F} `{Distance D} (ctx : chat_context F E D)
    (request_json : gmap string jvalue) : chat_outcome F :=
  let query := default JNull (request_json !! "query") in
  if negb (py_truthy query) then
    {| reply := Message "Please provide a query."; status := 400; calls := [] |}
  else
    match query with
    | JStr q =>
        let query_lower := normalize q in
        if existsb (fun keyword => py_in keyword query_lower) FORBIDDEN_KEYWORDS then
          {| reply := Message "Wrong question you asked."; status := 400;
             calls := [CheckKeywords query_lower] |}
        else
          match retrieve_documents q (ctx_model ctx) (ctx_faiss_index ctx)
                  (ctx_texts ctx) 3 d_one with
          | Raise e =>
              {| reply := Failure e; status := 500;
                 calls := [CheckKeywords query_lower; CallRetriever q] |}
          | Ok retrieved_docs =>
              match generate_response q retrieved_docs (ctx_data ctx) with
              | Raise e =>
                  {| reply := Failure e; status := 500;
                     calls := [CheckKeywords query_lower; CallRetriever q;
                               CallComposer q retrieved_docs] |}
              | Ok r =>
                  {| reply := Composed r; status := 200;
                     calls := [CheckKeywords query_lower; CallRetriever q;
                               CallComposer q retrieved_docs] |}
              end
          end
    | _ =>
        {| reply := Failure (AttributeError "object has no attribute 'lower'");
           status := 500; calls := [] |}
    end.

(** What [request.json] gives the handler: it raises when the request has
    no JSON body (wrong content type, text that does not parse), and
    otherwise it is the parsed value, of any JSON kind. *)
Inductive request_body : Type :=
  | NotJson
  | JsonBody (v : jvalue).

(** The handler on any request. [request.json.get('query')] is evaluated
    inside the [try]: when [request.json] raises, or is a value without a
    [get] method (anything but a dict), the [except] branch answers with
    status 500 and nothing else has happened. On a dict the handler goes on
    as [chat] does. *)
Definition chat_request {E : Type} `{PyFloat F} `{Distance D} (ctx : chat_context F E D)
    (body : request_body) : chat_outcome F :=
  match body with
  | NotJson =>
      {| reply := Failure (CapabilityError "request.json"); status := 500; calls := [] |}
  | JsonBody (JDict items) => chat ctx (list_to_map items)
  | JsonBody _ =>
      {| reply := Failure (AttributeError "object has no attribute 'get'");
         status := 500; calls := [] |}
  end.

(** The body is a JSON object, the one kind of body that has fields. *)
Definition is_json_object (body : request_body) : bool :=
  match body with
  | JsonBody (JDict _) => true
  | _ => false
  end.

(** The query field of a request, when it has one. *)
Definition query_field (body : request_body) : option jvalue :=
  match body with
  | JsonBody (JDict items) => (list_to_map items : gmap string jvalue) !! "query"
  | _ => None
  end.

(** ** Sample capabilities, for evaluating the definitions *)

(** A handful of floats with their [repr]. *)
Inductive sample_float : Type :=
  | F_1021_5
  | F_987_25
  | F_12_3
  | F_11_14
  | F_79_08.

Definition sample_float_str (x : sample_float) : string :=
  match x with
  | F_1021_5 => "1021.5"
  | F_987_25 => "987.25"
  | F_12_3 => "12.3"
  | F_11_14 => "11.14"
  | F_79_08 => "79.08"
  end.

Definition sample_float_of_str (s : string) : option sample_float :=
  if String.eqb s "1021.5" then Some F_1021_5
  else if String.eqb s "987.25" then Some F_987_25
  else if String.eqb s "12.3" then Some F_12_3
  else if String.eqb s "11.14" then Some F_11_14
  else if String.eqb s "79.08" then Some F_79_08
  else None.

Global Instance sample_PyFloat : PyFloat sample_float :=
  {| float_str := sample_float_str; float_of_str := sample_float_of_str |}.

(** Rational distances. *)
Global Instance Q_Distance : Distance Q :=
  {| dlt := fun a b => negb (Qle_bool b a); dle := Qle_bool; d_one := 1%Q |}.

(** ** Vocabulary of the properties *)

(** No occurrence of [sep] in [v +:+ t] starts inside [v]. *)
Fixpoint clean_before (sep v t : string) : bool :=
  match v with
  | EmptyString => true
  | String c v' => negb (String.prefix sep (v +:+ t)) && clean_before sep v' t
  end.

(** [s.startswith(c)] and [s.endswith(c)] for one character. *)
Definition starts_with_char (c : ascii) (s : string) : bool :=
  match s with
  | EmptyString => false
  | String d _ => Ascii.eqb c d
  end.

Fixpoint ends_with_char (c : ascii) (s : string) : bool :=
  match s with
  | EmptyString => false
  | String d EmptyString => Ascii.eqb c d
  | String _ s' => ends_with_char c s'
  end.

(** A rendered value holds neither separator of the grammar. *)
Definition separator_free (s : string) : bool :=
  negb (py_in ", " s) && negb (py_in ": " s).

(** The eight values of a Record as the f-string renders them. *)
Definition rendered_fields `{PyFloat F} (r : district_record F) : list string :=
  [district r; float_str (lat r); float_str (lon r); pretty (year r);
   scenario r; pretty (population_estimate r);
   float_str (avg_annual_rainfall_mm r); float_str (groundwater_level_m r)].

(** The Canonical Text over eight rendered values. *)
Definition canonical_text (v_district v_lat v_lon v_year v_scenario v_population
    v_rainfall v_groundwater : string) : string :=
  "District: " +:+ v_district +:+ ", Latitude: " +:+ v_lat
  +:+ ", Longitude: " +:+ v_lon +:+ ", Year: " +:+ v_year
  +:+ ", Scenario: " +:+ v_scenario +:+ ", Population: " +:+ v_population
  +:+ ", Rainfall: " +:+ v_rainfall +:+ " mm, Groundwater Level: "
  +:+ v_groundwater +:+ " m".

(** The mapping [fields] that the composer's loop builds from the Canonical
    Text over the same eight values. *)
Definition canonical_fields (v_district v_lat v_lon v_year v_scenario v_population
    v_rainfall v_groundwater : string) : gmap string string :=
  <["groundwater_level" := v_groundwater +:+ " m"]>
  (<["rainfall" := v_rainfall +:+ " mm"]>
  (<["population" := v_population]>
  (<["scenario" := v_scenario]>
  (<["year" := v_year]>
  (<["longitude" := v_lon]>
  (<["latitude" := v_lat]>
  (<["district" := v_district]> ∅))))))).

(** The two Records of the sample dataset, and the dataset as the program
    holds it. *)
Definition sample_record : district_record sample_float :=
  {| district := "Ariyalur"; lat := F_11_14; lon := F_79_08; year := 2020;
     scenario := "baseline"; population_estimate := 754894;
     avg_annual_rainfall_mm := F_1021_5; groundwater_level_m := F_12_3 |}.

Definition sample_record_dry : district_record sample_float :=
  {| district := "Ariyalur"; lat := F_11_14; lon := F_79_08; year := 2030;
     scenario := "dry"; population_estimate := 754894;
     avg_annual_rainfall_mm := F_987_25; groundwater_level_m := F_12_3 |}.

Definition sample_data : list (gmap string (pyval sample_float)) :=
  [record_dict sample_record; record_dict sample_record_dry].

(** [i] is the position of a record: [0 <= i < len(texts)]. *)
Definition real_position (texts : list string) (i : Z) : Prop :=
  (0 <= i < Z.of_nat (length texts))%Z.

(** [texts[i]] does not raise: [-len(texts) <= i < len(texts)]. *)
Definition in_index_range (texts : list string) (i : Z) : Prop :=
  (- Z.of_nat (length texts) <= i < Z.of_nat (length texts))%Z.

(** The candidates whose distance is strictly below the threshold, in the
    order the index gave them. *)
Definition below_threshold `{Distance D} (threshold : D) (candidates : list (Z * D))
    : list (Z * D) :=
  List.filter (fun c => dlt (snd c) threshold) candidates.

(** The texts of the sample dataset, and an index of its two vectors that
    answers a search for three neighbours the way FAISS does: the missing
    third entry has position -1 and the largest float32 as distance. *)
Definition sample_texts : list string :=
  ["District: Ariyalur, Latitude: 11.14, Longitude: 79.08, Year: 2020, Scenario: baseline, Population: 754894, Rainfall: 1021.5 mm, Groundwater Level: 12.3 m";
   "District: Ariyalur, Latitude: 11.14, Longitude: 79.08, Year: 2030, Scenario: dry, Population: 754894, Rainfall: 987.25 mm, Groundwater Level: 12.3 m"].

Definition sample_model (query : string) : result string := Ok query.

Definition FLT_MAX : Q := 340282346638528859811704183484516925440%Q.

(** [2.0 ** 128], the first power of two above the largest float32. *)
Definition TWO_POW_128 : Q := 340282366920938463463374607431768211456%Q.

Definition sample_index (e : string) (k : Z) : result (list Q * list Z) :=
  Ok ([(1 # 5)%Q; (7 # 10)%Q; FLT_MAX], [1%Z; 0%Z; (-1)%Z]).

(** The keys the table reads from every parsed document. *)
Definition EXPECTED_KEYS : list string :=
  ["district"; "year"; "scenario"; "rainfall"; "groundwater_level"; "population"].

(** The document parses, and into a mapping with every expected key. *)
Definition parses_to_key_set (doc : string) : bool :=
  match parse_doc doc with
  | Ok fields => forallb (fun key => bool_decide (is_Some (fields !! key))) EXPECTED_KEYS
  | Raise _ => false
  end.

(** The document goes through the loop body and the table without raising:
    it parses, its row renders and, when a chart is being collected, its
    chart item builds. *)
Definition doc_composes (F : Type) `{PyFloat F} (is_ariyalur : bool) (doc : string) : bool :=
  match parse_doc doc with
  | Ok fields =>
      is_ok (render_row fields)
      && (if is_ariyalur then is_ok (chart_entry (F:=F) fields) else true)
  | Raise _ => false
  end.

(** An HTTP status of the 4xx class. *)
Definition is_client_error (code : Z) : bool :=
  ((400 <=? code) && (code <? 500))%Z.

(** The query takes one of the two fixed replies. *)
Definition is_special (query : string) : bool :=
  py_in_list (normalize query) GREETINGS || String.eqb (normalize query) "who are you".

(** The rows and the chart of a response; a fixed text has neither. *)
Definition response_rows {F : Type} (r : response F) : list table_row :=
  match r with
  | Reply _ => []
  | TableReply _ rows _ => rows
  end.

Definition response_chart {F : Type} (r : response F) : option (chart_config F) :=
  match r with
  | Reply _ => None
  | TableReply _ _ chart => chart
  end.

(** The label of the chart for a table row. *)
Definition row_label (tr : table_row) : string :=
  td_year tr +:+ " (" +:+ td_scenario tr +:+ ")".

Definition sample_context : chat_context sample_float string Q :=
  {| ctx_data := sample_data; ctx_model := sample_model;
     ctx_faiss_index := sample_index; ctx_texts := sample_texts |}.

(** The keyword neither starts nor ends with white space. *)
Fixpoint ends_nonspace (s : string) : bool :=
  match s with
  | EmptyString => false
  | String c EmptyString => negb (py_isspace c)
  | String _ s' => ends_nonspace s'
  end.

Definition starts_nonspace (s : string) : bool :=
  match s with
  | EmptyString => false
  | String c _ => negb (py_isspace c)
  end.

(** ** Start-up: [load_data] and [create_vector_store] *)

(** A parsed JSON document, as [json.loads] returns it; a JSON object is a
    Python dict, here the list of its members in order, with distinct keys. *)
#[local] Unset Elimination Schemes.
Inductive json (F : Type) : Type :=
  | JsNull
  | JsBool (b : bool)
  | JsInt (z : Z)
  | JsFloat (x : F)
  | JsStr (s : string)
  | JsArr (items : list (json F))
  | JsObj (members : list (string * json F)).
#[local] Set Elimination Schemes.

Arguments JsNull {F}.
Arguments JsBool {F} b.
Arguments JsInt {F} z.
Arguments JsFloat {F} x.
Arguments JsStr {F} s.
Arguments JsArr {F} items.
Arguments JsObj {F} members.

(** What [load_data] can raise: the exceptions of its own, and the built-in
    ones already met. *)
Inductive load_exn : Type :=
  | FileNotFoundError (msg : string)
  | JSONDecodeError
  | TypeError (msg : string)
  | Builtin (e : exn).

Inductive loaded (A : Type) : Type :=
  | Loaded (a : A)
  | LoadRaise (e : load_exn).

Arguments Loaded {A} a.
Arguments LoadRaise {A} e.

(** [d.get(key)] on the members of a JSON object. *)
Fixpoint member {F : Type} (key : string) (members : list (string * json F))
    : option (json F) :=
  match members with
  | [] => None
  | (k, v) :: rest => if String.eqb k key then Some v else member key rest
  end.

(** The characters of a string, as iterating over it yields them. *)
Fixpoint chars_of {F : Type} (s : string) : list (json F) :=
  match s with
  | EmptyString => []
  | String c s' => JsStr (String c EmptyString) :: chars_of s'
  end.

(** [len(data)] and [for entry in data]: a list yields its items, a dict its
    keys, a string its characters; nothing else has a length. *)
Definition py_entries {F : Type} (data : json F) : loaded (list (json F)) :=
  match data with
  | JsArr items => Loaded items
  | JsObj members => Loaded (map (fun kv => JsStr (fst kv)) members)
  | JsStr s => Loaded (chars_of s)
  | _ => LoadRaise (TypeError "object has no len()")
  end.

(** [entry['output']]: only a dict is indexed by a string. *)
Definition entry_output {F : Type} (entry : json F) : loaded (json F) :=
  match entry with
  | JsObj members =>
      match member "output" members with
      | Some v => Loaded v
      | None => LoadRaise (Builtin (KeyError "output"))
      end
  | _ => LoadRaise (TypeError "indices must be integers or object is not subscriptable")
  end.

(** The comprehension [[entry['output'] for entry in data]]. *)
Fixpoint entry_outputs {F : Type} (entries : list (json F)) : loaded (list (json F)) :=
  match entries with
  | [] => Loaded []
  | entry :: rest =>
      match entry_output entry with
      | LoadRaise e => LoadRaise e
      | Loaded out =>
          match entry_outputs rest with
          | LoadRaise e => LoadRaise e
          | Loaded outs => Loaded (out :: outs)
          end
      end
  end.

(** [load_data(file_path)]. [files] maps the paths that exist to their
    decoded content; [json_loads] is [json.loads], [None] when it raises
    [JSONDecodeError]. The handlers of the function log and re-raise. *)
Definition load_data {F : Type} (files : gmap string string)
    (json_loads : string -> option (json F)) (file_path : string)
    : loaded (list (json F)) :=
  match files !! file_path with
  | None => LoadRaise (FileNotFoundError ("File not found: " +:+ file_path))
  | Some text =>
      let content := py_strip text in
      if String.eqb content ""
      then LoadRaise (Builtin (ValueError ("File is empty: " +:+ file_path)))
      else
        match json_loads content with
        | None => LoadRaise JSONDecodeError
        | Some data =>
            match py_entries data with
            | LoadRaise e => LoadRaise e
            | Loaded entries => entry_outputs entries
            end
        end
  end.

(** [create_vector_store(data)]. [load_model] is the construction of the
    sentence transformer, [encode] is [model.encode(texts)] and
    [build_index] is the making of the flat index from the embeddings (its
    dimension is read from them) and the adding of the embeddings. Each of
    the three may raise. *)
Definition create_vector_store {M Emb Idx : Type} `{PyFloat F}
    (load_model : result M) (encode : M -> list string -> result Emb)
    (build_index : Emb -> result Idx) (data : list (gmap string (pyval F)))
    : result (M * Idx * list string) :=
  model ← load_model;
  texts ← project_all data;
  embeddings ← encode model texts;
  faiss_index ← build_index embeddings;
  Ok (model, faiss_index, texts).

(** ** Vocabulary of the further properties *)

(** The keys [data_to_text] reads, in the order it reads them. *)
Definition REQUIRED_KEYS : list string :=
  ["district"; "lat"; "lon"; "year"; "scenario"; "population_estimate";
   "avg_annual_rainfall_mm"; "groundwater_level_m"].

(** The Canonical Text, the table row and the chart item of a Record. *)
Definition record_text `{PyFloat F} (r : district_record F) : string :=
  canonical_text (district r) (float_str (lat r)) (float_str (lon r))
    (pretty (year r)) (scenario r) (pretty (population_estimate r))
    (float_str (avg_annual_rainfall_mm r)) (float_str (groundwater_level_m r)).

Definition record_row `{PyFloat F} (r : district_record F) : table_row :=
  {| td_district := district r;
     td_year := pretty (year r);
     td_scenario := scenario r;
     td_rainfall := float_str (avg_annual_rainfall_mm r) +:+ " mm";
     td_groundwater_level := float_str (groundwater_level_m r) +:+ " m";
     td_population := pretty (population_estimate r) |}.

(** No rendered value of the Record holds the field separator. *)
Definition comma_free `{PyFloat F} (r : district_record F) : bool :=
  forallb (fun v => negb (py_in ", " v)) (rendered_fields r).

(** A Record whose district holds the key separator. *)
Definition sample_record_colon : district_record sample_float :=
  {| district := "Ariyalur: East"; lat := F_11_14; lon := F_79_08; year := 2020;
     scenario := "baseline"; population_estimate := 754894;
     avg_annual_rainfall_mm := F_1021_5; groundwater_level_m := F_12_3 |}.

(** Capabilities for evaluating [create_vector_store]: a model that embeds
    a text as itself and an index that is the list of its vectors. *)
Definition sample_load_model : result unit := Ok tt.

Definition sample_encode (model : unit) (texts : list string) : result (list string) :=
  Ok texts.

Definition sample_build_index (embeddings : list string) : result (list string) :=
  Ok embeddings.

(** The position in [texts] that the index [i] reads. *)
Definition read_position (texts : list string) (i : Z) : nat :=
  Z.to_nat (if (i <? 0)%Z then (i + Z.of_nat (length texts))%Z else i).

(** An index whose answer names a position past the end of [texts]. *)
Definition sample_index_stale (e : string) (k : Z) : result (list Q * list Z) :=
  Ok ([(1 # 5)%Q; (3 # 10)%Q], [0%Z; 5%Z]).

(** The key under which the composer files a part. *)
Definition field_key (key : string) : string := py_replace " " "_" (py_lower key).

(** The rainfall cell of the document reads as a number. *)
Definition rainfall_is_number (F : Type) `{PyFloat F} (doc : string) : bool :=
  match parse_doc doc with
  | Ok fields =>
      match fields !! "rainfall" with
      | Some cell =>
          match float_of_str (F:=F) (py_replace " mm" "" cell) with
          | Some _ => true
          | None => false
          end
      | None => false
      end
  | Raise _ => false
  end.

(** The label the chart gives a Record. *)
Definition record_label {F : Type} (r : district_record F) : string :=
  pretty (year r) +:+ " (" +:+ scenario r +:+ ")".

(** The chart over a list of Records, if the query asks for one. *)
Definition records_chart {F : Type} (is_ariyalur : bool) (rs : list (district_record F))
    : option (chart_config F) :=
  if is_ariyalur
  then Some {| labels := map record_label rs; dataset := map avg_annual_rainfall_mm rs |}
  else None.

(** Documents with the six keys and a rainfall that is no number. *)
Definition sample_texts_no_number : list string :=
  ["District: Ariyalur, Year: 2020, Scenario: baseline, Population: 754894, Rainfall: n/a, Groundwater Level: 12.3 m"].

(** The mapping a Record's text parses to, and its item of [chart_data]. *)
Definition record_fields `{PyFloat F} (r : district_record F) : gmap string string :=
  canonical_fields (district r) (float_str (lat r)) (float_str (lon r))
    (pretty (year r)) (scenario r) (pretty (population_estimate r))
    (float_str (avg_annual_rainfall_mm r)) (float_str (groundwater_level_m r)).

Definition record_item {F : Type} (r : district_record F) : chart_item F :=
  {| label := record_label r; rainfall := avg_annual_rainfall_mm r |}.

(** A file system with one dataset file and one blank file, and two
    stand-ins for [json.loads]: one reads every text as the same array of two
    entries, the other as an object. *)
Definition sample_files : gmap string string :=
  <["data.json" := " [entries] "]> (<["blank.json" := "  "]> ∅).

Definition sample_entries : list (json sample_float) :=
  [JsObj [("input", JsStr "Ariyalur 2020");
          ("output", JsObj [("district", JsStr "Ariyalur"); ("year", JsInt 2020)])];
   JsObj [("output", JsObj [("district", JsStr "Ariyalur"); ("year", JsInt 2030)])]].

Definition sample_loads (content : string) : option (json sample_float) :=
  Some (JsArr sample_entries).

Definition sample_loads_object (content : string) : option (json sample_float) :=
  Some (JsObj [("output", JsObj [("district", JsStr "Ariyalur")])]).

(** ** Properties *)

(** Lookups in a map written as a chain of inserts under literal keys. *)
Ltac lookup_inserts :=
  repeat (rewrite lookup_insert_eq || rewrite lookup_insert_ne by done).

(** *** The Python primitives on examples *)

Example py_lower_example : py_lower "Groundwater Level" = "groundwater level".
Proof. reflexivity. Qed.

Example py_strip_example : py_strip "  Who are YOU  " = "Who are YOU".
Proof. reflexivity. Qed.

Example py_split_example :
  py_split ", " "a: 1, b: 2,, c" = ["a: 1"; "b: 2,"; "c"] /\
  py_split ", " "" = [""] /\
  py_split_max 1 ": " "k: v: w" = ["k"; "v: w"] /\
  py_split_max 1 ": " "no colon" = ["no colon"].
Proof. repeat split. Qed.

Example py_replace_example :
  py_replace " mm" "" "1021.5 mm" = "1021.5" /\
  py_replace " " "_" "groundwater level" = "groundwater_level".
Proof. split; reflexivity. Qed.

Example py_list_getitem_example :
  py_list_getitem ["a"; "b"; "c"] 0 = Ok "a" /\
  py_list_getitem ["a"; "b"; "c"] (-1) = Ok "c" /\
  py_list_getitem ["a"; "b"; "c"] 3 = Raise IndexError /\
  py_list_getitem ["a"; "b"; "c"] (-4) = Raise IndexError.
Proof. repeat split. Qed.

(** The texts of the sample dataset are what the projector writes. *)
Example sample_texts_projected : project_all sample_data = Ok sample_texts.
Proof. vm_compute. reflexivity. Qed.

(** *** Strings *)

Section StringFacts.

Lemma append_cons (c : ascii) (s t : string) : String c s +:+ t = String c (s +:+ t).
Proof. reflexivity. Qed.

Lemma append_nil_l (t : string) : "" +:+ t = t.
Proof. reflexivity. Qed.

Lemma append_empty_r (s : string) : s +:+ "" = s.
Proof. induction s as [|c s IH]; [reflexivity | now rewrite append_cons, IH]. Qed.

Lemma append_assoc (a b c : string) : (a +:+ b) +:+ c = a +:+ (b +:+ c).
Proof. induction a as [|x a IH]; [reflexivity | now rewrite !append_cons, IH]. Qed.

Lemma length_append (a b : string) :
  String.length (a +:+ b) = String.length a + String.length b.
Proof.
  induction a as [|x a IH]; [reflexivity|].
  rewrite append_cons. simpl. now rewrite IH.
Qed.

Lemma prefix_split (sep s : string) :
  String.prefix sep s = true -> s = sep +:+ drop_chars (String.length sep) s.
Proof.
  revert s. induction sep as [|c sep IH]; intros s Hp.
  - reflexivity.
  - destruct s as [|d s]; simpl in Hp; [discriminate|].
    simpl. destruct (Ascii.ascii_dec c d) as [->|Hne]; [|discriminate].
    rewrite append_cons. f_equal. now apply IH.
Qed.

Lemma prefix_append (sep rest : string) : String.prefix sep (sep +:+ rest) = true.
Proof.
  induction sep as [|c sep IH]; [now destruct rest|].
  rewrite append_cons. simpl.
  destruct (Ascii.ascii_dec c c); [assumption | congruence].
Qed.

Lemma drop_chars_append (sep rest : string) :
  drop_chars (String.length sep) (sep +:+ rest) = rest.
Proof. induction sep as [|c sep IH]; [reflexivity | now rewrite append_cons]. Qed.

Lemma find_sep_unfold (sep s : string) :
  find_sep sep s =
  if String.prefix sep s then Some ("", drop_chars (String.length sep) s)
  else match s with
       | "" => None
       | String c s' =>
           match find_sep sep s' with
           | Some (before, after) => Some (String c before, after)
           | None => None
           end
       end.
Proof. destruct s; reflexivity. Qed.

(** The separator found by [find_sep] is where the string is cut. *)
Lemma find_sep_Some (sep s before after : string) :
  find_sep sep s = Some (before, after) -> s = before +:+ sep +:+ after.
Proof.
  revert before. induction s as [|c s IH]; intros before;
    rewrite find_sep_unfold;
    destruct (String.prefix sep _) eqn:Hp;
    try (intros [= <- <-]; now apply prefix_split); try discriminate.
  destruct (find_sep sep s) as [[b a]|]; [|discriminate].
  intros [= <- <-]. rewrite append_cons. f_equal. now apply IH.
Qed.

Lemma find_sep_shorter (sep s before after : string) :
  sep <> "" -> find_sep sep s = Some (before, after) ->
  String.length after < String.length s.
Proof.
  intros Hne Hf. apply find_sep_Some in Hf. subst s.
  rewrite !length_append. destruct sep; [congruence | simpl; lia].
Qed.

(** Any bound at least the length of the string cuts the same way. *)
Lemma py_split_max_enough (sep : string) (n m : nat) (s : string) :
  sep <> "" -> String.length s <= n -> String.length s <= m ->
  py_split_max n sep s = py_split_max m sep s.
Proof.
  intros Hne. revert m s.
  induction n as [|n IH]; intros m s Hn Hm.
  - destruct s; [|simpl in Hn; lia].
    destruct m; simpl; [reflexivity|].
    destruct sep; [congruence | reflexivity].
  - destruct m as [|m].
    + destruct s; [|simpl in Hm; lia].
      simpl. destruct sep; [congruence | reflexivity].
    + simpl. destruct (find_sep sep s) as [[b a]|] eqn:Hf; [|reflexivity].
      f_equal. pose proof (find_sep_shorter _ _ _ _ Hne Hf).
      apply IH; lia.
Qed.

Lemma py_split_cut (sep s before after : string) :
  sep <> "" -> find_sep sep s = Some (before, after) ->
  py_split sep s = before :: py_split sep after.
Proof.
  intros Hne Hf. unfold py_split.
  pose proof (find_sep_shorter _ _ _ _ Hne Hf) as Hlt.
  destruct (String.length s) as [|n] eqn:Hl; [lia|].
  simpl. rewrite Hf. f_equal. apply py_split_max_enough; [assumption | lia | lia].
Qed.

Lemma py_split_whole (sep s : string) :
  find_sep sep s = None -> py_split sep s = [s].
Proof.
  intros Hf. unfold py_split. destruct (String.length s); simpl; [reflexivity|].
  now rewrite Hf.
Qed.

End StringFacts.

(** *** Cutting a Canonical Text *)

Section Cutting.

Lemma clean_before_find (sep v t : string) :
  clean_before sep v t = true ->
  find_sep sep (v +:+ t) =
  match find_sep sep t with
  | Some (before, after) => Some (v +:+ before, after)
  | None => None
  end.
Proof.
  induction v as [|c v IH]; intros Hc.
  - rewrite append_nil_l. now destruct (find_sep sep t) as [[b a]|].
  - cbn [clean_before] in Hc. apply andb_prop in Hc as [Hp Hc].
    apply negb_true_iff in Hp. rewrite append_cons in Hp |- *.
    rewrite find_sep_unfold, Hp, (IH Hc).
    now destruct (find_sep sep t) as [[b a]|].
Qed.

(** A value without the two-character separator [a b] leaves no room for a
    cut, unless it ends in [a] and what follows starts with [b]. *)
Lemma clean_before_two (a b : ascii) (v t : string) :
  py_in (String a (String b "")) v = false ->
  ends_with_char a v && starts_with_char b t = false ->
  clean_before (String a (String b "")) v t = true.
Proof.
  induction v as [|c v IH]; intros Hin Hend; [reflexivity|].
  simpl in Hin. apply orb_false_elim in Hin as [Hp Hin].
  cbn [clean_before]. apply andb_true_intro. split.
  - apply negb_true_iff. rewrite append_cons. simpl.
    destruct (Ascii.ascii_dec a c) as [->|Hne]; [|reflexivity].
    destruct v as [|d v].
    + rewrite append_nil_l. simpl in Hend. rewrite Ascii.eqb_refl in Hend.
      destruct t as [|e t]; [reflexivity|]. simpl in *.
      destruct (Ascii.ascii_dec b e) as [->|]; [|reflexivity].
      now rewrite Ascii.eqb_refl in Hend.
    + rewrite append_cons. simpl in *.
      destruct (Ascii.ascii_dec c c); [|congruence].
      destruct (Ascii.ascii_dec b d); [|reflexivity].
      now destruct v.
  - apply IH; [assumption|]. destruct v; [reflexivity | exact Hend].
Qed.

Lemma float_text_no_comma_end (s : string) :
  all_chars float_repr_char s = true -> ends_with_char "," s = false.
Proof.
  induction s as [|c s IH]; [reflexivity|]. cbn [all_chars].
  intros [Hc Hs]%andb_prop. destruct s as [|d s].
  - cbn [ends_with_char].
    destruct (Ascii.eqb_spec "," c) as [<-|]; [discriminate Hc | reflexivity].
  - change (ends_with_char "," (String d s) = false). now apply IH.
Qed.

Lemma find_sep_here (sep rest : string) :
  find_sep sep (sep +:+ rest) = Some ("", rest).
Proof. now rewrite find_sep_unfold, prefix_append, drop_chars_append. Qed.

(** The cut after a field [key value unit], when more fields follow. *)
Lemma find_field (key v unit rest : string) :
  clean_before ", " key (v +:+ unit +:+ ", " +:+ rest) = true ->
  py_in ", " v = false ->
  ends_with_char "," v && starts_with_char " " (unit +:+ ", " +:+ rest) = false ->
  clean_before ", " unit (", " +:+ rest) = true ->
  find_sep ", " (key +:+ v +:+ unit +:+ ", " +:+ rest) = Some (key +:+ v +:+ unit, rest).
Proof.
  intros Hkey Hv Hend Hunit.
  rewrite (clean_before_find _ key _ Hkey).
  rewrite (clean_before_find _ v _ (clean_before_two _ _ _ _ Hv Hend)).
  rewrite (clean_before_find _ unit _ Hunit), find_sep_here.
  now rewrite append_empty_r.
Qed.

(** No cut in the last field. *)
Lemma find_last_field (key v unit : string) :
  clean_before ", " key (v +:+ unit) = true ->
  py_in ", " v = false ->
  ends_with_char "," v && starts_with_char " " unit = false ->
  find_sep ", " unit = None ->
  find_sep ", " (key +:+ v +:+ unit) = None.
Proof.
  intros Hkey Hv Hend Hunit.
  rewrite (clean_before_find _ key _ Hkey).
  rewrite (clean_before_find _ v _ (clean_before_two _ _ _ _ Hv Hend)).
  now rewrite Hunit.
Qed.

Lemma parse_part_field (key value : string) :
  clean_before ": " key (": " +:+ value) = true ->
  parse_part (key +:+ ": " +:+ value) = Ok (key, value).
Proof.
  intros Hkey. unfold parse_part. cbn [py_split_max].
  rewrite (clean_before_find _ key _ Hkey), find_sep_here.
  now rewrite append_empty_r.
Qed.

(** One step of the split: the field [key v unit] is cut off and [next] heads
    what remains; [side] settles the end of [v] against the start of [unit]. *)
Ltac cut_field key v unit next side :=
  erewrite py_split_cut;
    [| discriminate
     | apply (find_field key v unit (next +:+ _));
       [reflexivity | assumption | side | reflexivity]];
  rewrite ?append_empty_r; f_equal.

(** Splitting a Canonical Text on the field separator gives its eight
    fields, provided no value holds the separator and the two values in
    front of a unit do not end in a comma. *)
Lemma split_canonical_text (d la lo y s p rf g : string) :
  Forall (fun v => py_in ", " v = false) [d; la; lo; y; s; p; rf; g] ->
  ends_with_char "," rf = false -> ends_with_char "," g = false ->
  py_split ", " (canonical_text d la lo y s p rf g) =
  ["District: " +:+ d; "Latitude: " +:+ la; "Longitude: " +:+ lo;
   "Year: " +:+ y; "Scenario: " +:+ s; "Population: " +:+ p;
   "Rainfall: " +:+ rf +:+ " mm"; "Groundwater Level: " +:+ g +:+ " m"].
Proof.
  intros Hall Hrf Hg.
  repeat match goal with
         | H : Forall _ (_ :: _) |- _ => apply Forall_cons_1 in H as [? H]
         end.
  unfold canonical_text.
  cut_field "District: " d "" "Latitude: " ltac:(apply andb_false_r).
  cut_field "Latitude: " la "" "Longitude: " ltac:(apply andb_false_r).
  cut_field "Longitude: " lo "" "Year: " ltac:(apply andb_false_r).
  cut_field "Year: " y "" "Scenario: " ltac:(apply andb_false_r).
  cut_field "Scenario: " s "" "Population: " ltac:(apply andb_false_r).
  cut_field "Population: " p "" "Rainfall: " ltac:(apply andb_false_r).
  cut_field "Rainfall: " rf " mm" "Groundwater Level: " ltac:(now rewrite Hrf).
  apply py_split_whole.
  apply (find_last_field "Groundwater Level: " g " m");
    [reflexivity | assumption | now rewrite Hg | reflexivity].
Qed.

Lemma parse_canonical_parts (d la lo y s p rf g : string) :
  parse_parts
    ["District: " +:+ d; "Latitude: " +:+ la; "Longitude: " +:+ lo;
     "Year: " +:+ y; "Scenario: " +:+ s; "Population: " +:+ p;
     "Rainfall: " +:+ rf +:+ " mm"; "Groundwater Level: " +:+ g +:+ " m"] ∅
  = Ok (canonical_fields d la lo y s p rf g).
Proof.
  cbn [parse_parts].
  rewrite (parse_part_field "District" d eq_refl : parse_part ("District: " +:+ d) = _).
  rewrite (parse_part_field "Latitude" la eq_refl : parse_part ("Latitude: " +:+ la) = _).
  rewrite (parse_part_field "Longitude" lo eq_refl : parse_part ("Longitude: " +:+ lo) = _).
  rewrite (parse_part_field "Year" y eq_refl : parse_part ("Year: " +:+ y) = _).
  rewrite (parse_part_field "Scenario" s eq_refl : parse_part ("Scenario: " +:+ s) = _).
  rewrite (parse_part_field "Population" p eq_refl
           : parse_part ("Population: " +:+ p) = _).
  rewrite (parse_part_field "Rainfall" (rf +:+ " mm") eq_refl
           : parse_part ("Rainfall: " +:+ rf +:+ " mm") = _).
  rewrite (parse_part_field "Groundwater Level" (g +:+ " m") eq_refl
           : parse_part ("Groundwater Level: " +:+ g +:+ " m") = _).
  reflexivity.
Qed.

(** The composer's parser inverts the projector's grammar. *)
Lemma parse_canonical_text (d la lo y s p rf g : string) :
  Forall (fun v => py_in ", " v = false) [d; la; lo; y; s; p; rf; g] ->
  ends_with_char "," rf = false -> ends_with_char "," g = false ->
  parse_doc (canonical_text d la lo y s p rf g)
  = Ok (canonical_fields d la lo y s p rf g).
Proof.
  intros Hall Hrf Hg. unfold parse_doc.
  rewrite split_canonical_text by assumption.
  apply parse_canonical_parts.
Qed.

End Cutting.

(** *** The sample capabilities obey the laws *)

Global Instance sample_PyFloatLaws : PyFloatLaws sample_float.
Proof. split; intros []; reflexivity. Qed.

Global Instance Q_DistanceLaws : DistanceLaws Q.
Proof.
  split. intros a b c Hab Hbc. simpl in *.
  apply negb_true_iff in Hab. apply negb_true_iff.
  destruct (Qle_bool c a) eqn:Hca; [|reflexivity].
  apply Qle_bool_iff in Hca, Hbc.
  assert (Hba : Qle_bool b a = true)
    by (apply Qle_bool_iff; eapply Qle_trans; eassumption).
  congruence.
Qed.

(** *** Text projector and parser *)

Section RoundTrip.

Context {F : Type} `{PyFloatLaws F}.

(** On the dict of a Record, the projector finds every key and writes the
    Canonical Text over the rendered values. *)
Lemma data_to_text_record (r : district_record F) :
  data_to_text (record_dict r) =
  Ok (canonical_text (district r) (float_str (lat r)) (float_str (lon r))
        (pretty (year r)) (scenario r) (pretty (population_estimate r))
        (float_str (avg_annual_rainfall_mm r)) (float_str (groundwater_level_m r))).
Proof.
  unfold data_to_text, py_getitem, record_dict. lookup_inserts. reflexivity.
Qed.

Lemma separator_free_comma (s : string) :
  separator_free s = true -> py_in ", " s = false.
Proof.
  unfold separator_free. intros [Hc _]%andb_prop. now apply negb_true_iff.
Qed.

(** C1. For every Record whose rendered values hold neither [", "] nor
    [": "], the projector produces a Canonical Text and parsing it the way
    the composer does (split on [", "], then on the first [": "], key
    lower-cased with spaces turned into underscores) gives back every field
    of the Record: the rendered value, followed by its unit for rainfall
    and groundwater level. All eight fields are recovered, the six displayed
    ones among them. *)
Theorem parse_project_roundtrip (r : district_record F) :
  forallb separator_free (rendered_fields r) = true ->
  exists text fields,
    data_to_text (record_dict r) = Ok text /\
    parse_doc text = Ok fields /\
    fields !! "district" = Some (district r) /\
    fields !! "latitude" = Some (float_str (lat r)) /\
    fields !! "longitude" = Some (float_str (lon r)) /\
    fields !! "year" = Some (pretty (year r)) /\
    fields !! "scenario" = Some (scenario r) /\
    fields !! "population" = Some (pretty (population_estimate r)) /\
    fields !! "rainfall" = Some (float_str (avg_annual_rainfall_mm r) +:+ " mm") /\
    fields !! "groundwater_level" = Some (float_str (groundwater_level_m r) +:+ " m").
Proof.
  intros Hfree. rewrite forallb_forall in Hfree.
  eexists; eexists. split; [apply data_to_text_record|]. split.
  - apply parse_canonical_text.
    + repeat constructor; apply separator_free_comma, Hfree;
        unfold rendered_fields; simpl; tauto.
    + apply float_text_no_comma_end, float_str_alphabet.
    + apply float_text_no_comma_end, float_str_alphabet.
  - unfold canonical_fields. repeat split; lookup_inserts; reflexivity.
Qed.

End RoundTrip.

Lemma parse_project_roundtrip_witness :
  forallb separator_free (rendered_fields sample_record) = true /\
  exists text fields,
    data_to_text (record_dict sample_record) = Ok text /\
    parse_doc text = Ok fields /\
    fields !! "district" = Some "Ariyalur" /\
    fields !! "latitude" = Some "11.14" /\
    fields !! "longitude" = Some "79.08" /\
    fields !! "year" = Some "2020" /\
    fields !! "scenario" = Some "baseline" /\
    fields !! "population" = Some "754894" /\
    fields !! "rainfall" = Some "1021.5 mm" /\
    fields !! "groundwater_level" = Some "12.3 m".
Proof.
  split; [vm_compute; reflexivity|].
  exact (parse_project_roundtrip sample_record eq_refl).
Defined.

(** *** Retriever *)

Section Retriever.

Context {E D : Type} `{Distance D}.

Lemma py_list_getitem_real (texts : list string) (i : Z) :
  real_position texts i ->
  exists doc, py_list_getitem texts i = Ok doc /\ texts !! Z.to_nat i = Some doc.
Proof.
  unfold real_position, py_list_getitem. intros [H0 Hn].
  destruct (texts !! Z.to_nat i) as [doc|] eqn:Hl.
  - exists doc. split; [|reflexivity].
    destruct (Z.ltb_spec i 0); [lia|].
    destruct (Z.leb_spec 0 i); [|lia].
    destruct (Z.ltb_spec i (Z.of_nat (length texts))); [|lia].
    simpl. now rewrite Hl.
  - apply lookup_ge_None in Hl. lia.
Qed.

Lemma py_list_getitem_in_range (texts : list string) (i : Z) :
  in_index_range texts i -> exists doc, py_list_getitem texts i = Ok doc.
Proof.
  unfold in_index_range, py_list_getitem. intros [H0 Hn].
  set (n := Z.of_nat (length texts)) in *.
  set (j := if (i <? 0)%Z then (i + n)%Z else i).
  assert (Hj : (0 <= j < n)%Z) by (subst j; destruct (Z.ltb_spec i 0); lia).
  destruct (Z.leb_spec 0 j); [|lia]. destruct (Z.ltb_spec j n); [|lia]. simpl.
  destruct (texts !! Z.to_nat j) as [doc|] eqn:Hl; [now exists doc|].
  apply lookup_ge_None in Hl. lia.
Qed.

(** The comprehension returns the text of every candidate below the
    threshold, in order, as long as none of those positions is out of
    range. *)
Lemma select_docs_below (texts : list string) (t : D) (candidates : list (Z * D)) :
  Forall (fun c => in_index_range texts (fst c)) (below_threshold t candidates) ->
  exists docs,
    select_docs texts t candidates = Ok docs /\
    Forall2 (fun c doc => py_list_getitem texts (fst c) = Ok doc)
            (below_threshold t candidates) docs.
Proof.
  induction candidates as [|[i d] rest IH]; intros Hr.
  - exists []. split; [reflexivity | constructor].
  - unfold below_threshold in *. cbn [select_docs List.filter snd] in *.
    destruct (dlt d t) eqn:Hd.
    + apply Forall_cons_1 in Hr as [Hi Hr].
      destruct (py_list_getitem_in_range _ _ Hi) as [doc Hdoc].
      destruct (IH Hr) as (docs & -> & Hall).
      exists (doc :: docs). cbn [fst] in Hdoc. rewrite Hdoc.
      split; [reflexivity | now constructor].
    + exact (IH Hr).
Qed.

(** Raising the threshold only adds documents. *)
Lemma select_docs_monotone `{!DistanceLaws D} (texts : list string) (t1 t2 : D)
    (candidates : list (Z * D)) (docs2 : list string) :
  dle t1 t2 = true ->
  select_docs texts t2 candidates = Ok docs2 ->
  exists docs1, select_docs texts t1 candidates = Ok docs1 /\ sublist docs1 docs2.
Proof.
  intros Hle. revert docs2.
  induction candidates as [|[i d] rest IH]; intros docs2 H2.
  - injection H2 as <-. exists []. split; [reflexivity | constructor].
  - cbn [select_docs] in *.
    destruct (dlt d t1) eqn:H1.
    + rewrite (dlt_dle_trans _ _ _ H1 Hle) in H2.
      destruct (py_list_getitem texts i) as [doc|e]; [|discriminate].
      destruct (select_docs texts t2 rest) as [rest2|e]; [|discriminate].
      injection H2 as <-.
      destruct (IH _ eq_refl) as (docs1 & -> & Hsub).
      exists (doc :: docs1). split; [reflexivity | now constructor].
    + destruct (dlt d t2).
      * destruct (py_list_getitem texts i) as [doc|e]; [|discriminate].
        destruct (select_docs texts t2 rest) as [rest2|e]; [|discriminate].
        injection H2 as <-.
        destruct (IH _ eq_refl) as (docs1 & -> & Hsub).
        exists docs1. split; [reflexivity | now constructor].
      * exact (IH _ H2).
Qed.

Lemma retrieve_documents_unfold (query : string) (model : string -> result E)
    (faiss_index : E -> Z -> result (list D * list Z)) (texts : list string)
    (k : Z) (t : D) (e : E) (distances : list D) (indices : list Z) :
  model query = Ok e -> faiss_index e k = Ok (distances, indices) ->
  retrieve_documents query model faiss_index texts k t =
  select_docs texts t (zip indices distances).
Proof.
  intros Hm Hs. unfold retrieve_documents. rewrite Hm. cbn. rewrite Hs. cbn.
  destruct (select_docs texts t (zip indices distances)) as [[|doc docs]|]; reflexivity.
Qed.

(** C3. For every query, [k] and threshold, once the index has answered,
    the retriever returns the texts of exactly the candidates whose distance
    is strictly below the threshold, in the order of the index; when no
    candidate is below the threshold it returns the empty list and raises
    nothing. The positions that are read must be within the range of
    [texts]. *)
Theorem retrieve_keeps_below_threshold (query : string) (model : string -> result E)
    (faiss_index : E -> Z -> result (list D * list Z)) (texts : list string)
    (k : Z) (t : D) (e : E) (distances : list D) (indices : list Z) :
  model query = Ok e ->
  faiss_index e k = Ok (distances, indices) ->
  Forall (fun c => in_index_range texts (fst c))
         (below_threshold t (zip indices distances)) ->
  exists docs,
    retrieve_documents query model faiss_index texts k t = Ok docs /\
    Forall2 (fun c doc => py_list_getitem texts (fst c) = Ok doc)
            (below_threshold t (zip indices distances)) docs /\
    (below_threshold t (zip indices distances) = [] -> docs = []).
Proof.
  intros Hm Hs Hr.
  rewrite (retrieve_documents_unfold _ _ _ _ _ _ _ _ _ Hm Hs).
  destruct (select_docs_below _ _ _ Hr) as (docs & Hsel & Hall).
  exists docs. split; [assumption|]. split; [assumption|].
  intros Hnone. rewrite Hnone in Hall. now inversion Hall.
Qed.

(** C4. For a fixed query and [k] and thresholds [t1 <= t2], the result for
    [t1] is obtained from the result for [t2] by leaving documents out:
    every document retrieved under [t1] is retrieved under [t2]. *)
Theorem retrieve_threshold_monotone `{!DistanceLaws D} (query : string)
    (model : string -> result E)
    (faiss_index : E -> Z -> result (list D * list Z)) (texts : list string)
    (k : Z) (t1 t2 : D) (e : E) (distances : list D) (indices : list Z) :
  model query = Ok e ->
  faiss_index e k = Ok (distances, indices) ->
  Forall (fun c => in_index_range texts (fst c))
         (below_threshold t2 (zip indices distances)) ->
  dle t1 t2 = true ->
  exists docs1 docs2,
    retrieve_documents query model faiss_index texts k t1 = Ok docs1 /\
    retrieve_documents query model faiss_index texts k t2 = Ok docs2 /\
    sublist docs1 docs2 /\
    (forall doc, In doc docs1 -> In doc docs2).
Proof.
  intros Hm Hs Hr Hle.
  rewrite !(retrieve_documents_unfold _ _ _ _ _ _ _ _ _ Hm Hs).
  destruct (select_docs_below _ _ _ Hr) as (docs2 & Hsel2 & _).
  destruct (select_docs_monotone _ _ _ _ _ Hle Hsel2) as (docs1 & Hsel1 & Hsub).
  exists docs1, docs2. repeat split; try assumption.
  intros doc Hin. apply list_elem_of_In. apply list_elem_of_In in Hin.
  eapply sublist_subseteq; eassumption.
Qed.

(** The comprehension over two runs of candidates, one after the other. *)
Lemma select_docs_app (texts : list string) (t : D) (c1 c2 : list (Z * D)) :
  select_docs texts t (c1 ++ c2) =
  (docs1 ← select_docs texts t c1; docs2 ← select_docs texts t c2; Ok (docs1 ++ docs2)).
Proof.
  induction c1 as [|[i d] c1 IH]; cbn [app select_docs].
  - cbn. destruct (select_docs texts t c2); reflexivity.
  - destruct (dlt d t); [|exact IH].
    destruct (py_list_getitem texts i) as [doc|e]; cbn; [|reflexivity].
    rewrite IH. destruct (select_docs texts t c1) as [docs1|e]; cbn; [|reflexivity].
    destruct (select_docs texts t c2) as [docs2|e]; reflexivity.
Qed.

(** [texts[-1]] is the last text. *)
Lemma py_list_getitem_last (texts : list string) (last : string) :
  texts !! (length texts - 1) = Some last -> py_list_getitem texts (-1) = Ok last.
Proof.
  intros Hl. assert (Hn : 0 < length texts) by (apply lookup_lt_Some in Hl; lia).
  unfold py_list_getitem. cbv zeta. change (-1 <? 0)%Z with true. cbv iota.
  destruct (Z.leb_spec 0 (-1 + Z.of_nat (length texts))); [|lia].
  destruct (Z.ltb_spec (-1 + Z.of_nat (length texts)) (Z.of_nat (length texts))); [|lia].
  cbn [andb].
  replace (Z.to_nat (-1 + Z.of_nat (length texts))) with (length texts - 1) by lia.
  now rewrite Hl.
Qed.

(** Padding entries that do not pass the threshold select nothing. *)
Lemma select_docs_padding_out (texts : list string) (t pad : D) (m : nat) :
  dlt pad t = false -> select_docs texts t (replicate m ((-1)%Z, pad)) = Ok [].
Proof.
  intros Hd. induction m as [|m IH]; cbn [replicate select_docs]; [reflexivity|].
  rewrite Hd. exact IH.
Qed.

(** Padding entries that pass the threshold select the last text, each. *)
Lemma select_docs_padding_in (texts : list string) (t pad : D) (m : nat) (last : string) :
  dlt pad t = true -> texts !! (length texts - 1) = Some last ->
  select_docs texts t (replicate m ((-1)%Z, pad)) = Ok (replicate m last).
Proof.
  intros Hd Hl. induction m as [|m IH]; cbn [replicate select_docs]; [reflexivity|].
  rewrite Hd, (py_list_getitem_last _ _ Hl), IH. reflexivity.
Qed.

Lemma below_threshold_positions (t : D) (indices : list Z) (distances : list D) :
  sublist (map fst (below_threshold t (zip indices distances))) indices.
Proof.
  unfold below_threshold. revert distances.
  induction indices as [|i indices IH]; intros [|d distances]; cbn;
    try (apply sublist_nil_l).
  destruct (dlt d t); cbn; [apply sublist_skip | apply sublist_cons]; apply IH.
Qed.

(** Distinct positions of records are no more than the records. *)
Lemma real_positions_bounded (texts : list string) (positions : list Z) :
  NoDup positions -> Forall (real_position texts) positions ->
  length positions <= length texts.
Proof.
  intros Hnd Hreal.
  rewrite <- (Nat2Z.id (length texts)), <- (length_seqZ 0 (Z.of_nat (length texts))).
  apply submseteq_length, NoDup_submseteq; [assumption|].
  intros i Hi. apply elem_of_seqZ.
  rewrite Forall_forall in Hreal. specialize (Hreal i Hi).
  unfold real_position in Hreal. lia.
Qed.

(** The texts of the real entries below the threshold: one per entry, read
    at the entry's position. *)
Lemma select_docs_real (texts : list string) (t : D) (candidates : list (Z * D)) :
  Forall (fun c => real_position texts (fst c)) candidates ->
  exists docs,
    select_docs texts t candidates = Ok docs /\
    Forall2 (fun c doc => texts !! Z.to_nat (fst c) = Some doc)
            (below_threshold t candidates) docs.
Proof.
  unfold below_threshold.
  induction candidates as [|[i d] rest IH]; intros Hreal.
  - exists []. split; [reflexivity | constructor].
  - apply Forall_cons_1 in Hreal as [Hi Hrest]. cbn [fst] in Hi.
    destruct (IH Hrest) as (docs & Hsel & Hall).
    cbn [select_docs List.filter snd]. destruct (dlt d t).
    + destruct (py_list_getitem_real _ _ Hi) as (doc & Hg & Hl).
      exists (doc :: docs). rewrite Hg, Hsel. split; [reflexivity|].
      constructor; [exact Hl | exact Hall].
    + exists docs. split; assumption.
Qed.

(** C5 (as amended). A search for more neighbours than there are records is
    not refused. The index answers with entries for real records, each
    record at most once, followed by [m] padding entries, which have the
    position -1 and one distance [pad]. Whatever the threshold, the texts
    [docs] of the real entries below it are read at their own positions, in
    the order of the index, each position once, and are no more than the
    records. For a threshold that the padding distance does not pass the
    retriever returns exactly [docs]: no text is selected through the
    position -1. For a threshold that the padding distance passes, the
    retriever returns [docs] followed by the last text once for every
    padding entry. *)
Theorem retrieve_beyond_population (query : string) (model : string -> result E)
    (faiss_index : E -> Z -> result (list D * list Z)) (texts : list string)
    (k : Z) (t : D) (e : E) (real_distances : list D) (real_indices : list Z)
    (pad : D) (m : nat) :
  (Z.of_nat (length texts) < k)%Z ->
  model query = Ok e ->
  faiss_index e k =
    Ok (real_distances ++ replicate m pad, real_indices ++ replicate m (-1)%Z) ->
  length real_indices = length real_distances ->
  Forall (real_position texts) real_indices ->
  NoDup real_indices ->
  exists docs,
    Forall2 (fun c doc => texts !! Z.to_nat (fst c) = Some doc)
            (below_threshold t (zip real_indices real_distances)) docs /\
    NoDup (map fst (below_threshold t (zip real_indices real_distances))) /\
    length docs <= length texts /\
    (dlt pad t = false ->
     retrieve_documents query model faiss_index texts k t = Ok docs) /\
    (dlt pad t = true ->
     forall last, texts !! (length texts - 1) = Some last ->
     retrieve_documents query model faiss_index texts k t
     = Ok (docs ++ replicate m last)).
Proof.
  intros _ Hm Hs Hlen Hreal Hnd.
  rewrite (retrieve_documents_unfold _ _ _ _ _ _ _ _ _ Hm Hs).
  rewrite (zip_with_app pair _ _ _ _ Hlen), zip_with_replicate, select_docs_app.
  set (kept := below_threshold t (zip real_indices real_distances)).
  assert (Hsub : sublist (map fst kept) real_indices)
    by apply below_threshold_positions.
  assert (Hcand : Forall (fun c => real_position texts (fst c))
                    (zip real_indices real_distances)).
  { apply Forall_forall. intros [i d] Hc.
    apply (proj1 (Forall_forall _ _) Hreal). eapply elem_of_zip_l, Hc. }
  destruct (select_docs_real texts t _ Hcand) as (docs & Hsel & Hall).
  fold kept in Hall. rewrite Hsel. cbn.
  assert (Hnd' : NoDup (map fst kept)) by (eapply sublist_NoDup; eassumption).
  assert (Hpos : Forall (real_position texts) (map fst kept)).
  { apply Forall_forall. intros i Hi.
    apply (proj1 (Forall_forall _ _) Hreal). eapply sublist_subseteq; eassumption. }
  exists docs. split; [exact Hall|]. split; [exact Hnd'|]. split; [|split].
  - rewrite <- (Forall2_length _ _ _ Hall), <- (length_map fst).
    now apply real_positions_bounded.
  - intros Hd. rewrite (select_docs_padding_out _ _ _ _ Hd). cbn.
    now rewrite app_nil_r.
  - intros Hd last Hl. rewrite (select_docs_padding_in _ _ _ _ _ Hd Hl). reflexivity.
Qed.

End Retriever.

Lemma retrieve_keeps_below_threshold_witness :
  (sample_model "Ariyalur rainfall" = Ok "Ariyalur rainfall" /\
   sample_index "Ariyalur rainfall" 3 =
     Ok ([(1 # 5)%Q; (7 # 10)%Q; FLT_MAX], [1%Z; 0%Z; (-1)%Z]) /\
   Forall (fun c => in_index_range sample_texts (fst c))
     (below_threshold 1%Q (zip [1%Z; 0%Z; (-1)%Z] [(1 # 5)%Q; (7 # 10)%Q; FLT_MAX]))) /\
  exists docs,
    retrieve_documents "Ariyalur rainfall" sample_model sample_index sample_texts 3 1%Q
      = Ok docs /\
    Forall2 (fun c doc => py_list_getitem sample_texts (fst c) = Ok doc)
      (below_threshold 1%Q (zip [1%Z; 0%Z; (-1)%Z] [(1 # 5)%Q; (7 # 10)%Q; FLT_MAX]))
      docs /\
    (below_threshold 1%Q (zip [1%Z; 0%Z; (-1)%Z] [(1 # 5)%Q; (7 # 10)%Q; FLT_MAX]) = []
     -> docs = []).
Proof.
  assert (Hr : Forall (fun c => in_index_range sample_texts (fst c))
     (below_threshold 1%Q (zip [1%Z; 0%Z; (-1)%Z] [(1 # 5)%Q; (7 # 10)%Q; FLT_MAX]))).
  { repeat constructor; unfold in_index_range; simpl; lia. }
  split; [split; [reflexivity | split; [reflexivity | exact Hr]]|].
  exact (retrieve_keeps_below_threshold "Ariyalur rainfall" sample_model sample_index
           sample_texts 3 1%Q _ _ _ eq_refl eq_refl Hr).
Defined.

Lemma retrieve_threshold_monotone_witness :
  dle (1 # 2)%Q 1%Q = true /\
  exists docs1 docs2,
    retrieve_documents "Ariyalur rainfall" sample_model sample_index sample_texts 3
      (1 # 2)%Q = Ok docs1 /\
    retrieve_documents "Ariyalur rainfall" sample_model sample_index sample_texts 3
      1%Q = Ok docs2 /\
    sublist docs1 docs2 /\
    (forall doc, In doc docs1 -> In doc docs2).
Proof.
  split; [reflexivity|].
  apply (retrieve_threshold_monotone "Ariyalur rainfall" sample_model sample_index
           sample_texts 3 (1 # 2)%Q 1%Q "Ariyalur rainfall"
           [(1 # 5)%Q; (7 # 10)%Q; FLT_MAX] [1%Z; 0%Z; (-1)%Z]);
    [reflexivity | reflexivity | | reflexivity].
  repeat constructor; unfold in_index_range; simpl; lia.
Defined.

Lemma retrieve_beyond_population_witness :
  ((Z.of_nat (length sample_texts) < 3)%Z /\
   sample_model "Ariyalur rainfall" = Ok "Ariyalur rainfall" /\
   sample_index "Ariyalur rainfall" 3 =
     Ok ([(1 # 5)%Q; (7 # 10)%Q] ++ replicate 1 FLT_MAX,
         [1%Z; 0%Z] ++ replicate 1 (-1)%Z) /\
   length [1%Z; 0%Z] = length [(1 # 5)%Q; (7 # 10)%Q] /\
   Forall (real_position sample_texts) [1%Z; 0%Z] /\
   NoDup [1%Z; 0%Z]) /\
  exists docs,
    Forall2 (fun c doc => sample_texts !! Z.to_nat (fst c) = Some doc)
            (below_threshold 1%Q (zip [1%Z; 0%Z] [(1 # 5)%Q; (7 # 10)%Q])) docs /\
    NoDup (map fst (below_threshold 1%Q (zip [1%Z; 0%Z] [(1 # 5)%Q; (7 # 10)%Q]))) /\
    length docs <= length sample_texts /\
    (dlt FLT_MAX 1%Q = false ->
     retrieve_documents "Ariyalur rainfall" sample_model sample_index sample_texts 3 1%Q
     = Ok docs) /\
    (dlt FLT_MAX 1%Q = true ->
     forall last, sample_texts !! (length sample_texts - 1) = Some last ->
     retrieve_documents "Ariyalur rainfall" sample_model sample_index sample_texts 3 1%Q
     = Ok (docs ++ replicate 1 last)).
Proof.
  assert (Hreal : Forall (real_position sample_texts) [1%Z; 0%Z]).
  { apply Forall_cons_2; [unfold real_position; simpl; lia|].
    apply Forall_cons_2; [unfold real_position; simpl; lia | apply Forall_nil_2]. }
  assert (Hnd : NoDup [1%Z; 0%Z]).
  { apply NoDup_ListNoDup.
    constructor; [simpl; intros [Heq|[]]; lia | constructor; [simpl; tauto | constructor]]. }
  split.
  - split; [simpl; lia|]. split; [reflexivity|]. split; [reflexivity|].
    split; [reflexivity|]. split; [exact Hreal | exact Hnd].
  - exact (retrieve_beyond_population "Ariyalur rainfall" sample_model sample_index
             sample_texts 3 1%Q "Ariyalur rainfall" [(1 # 5)%Q; (7 # 10)%Q] [1%Z; 0%Z]
             FLT_MAX 1 ltac:(simpl; lia) eq_refl eq_refl eq_refl Hreal Hnd).
Defined.

(** C5 as the claim has it fails once the threshold lets the padding
    distance pass. The index holds two records and is searched for three
    neighbours; at the threshold [2.0 ** 128] the retriever returns three
    documents, more than there are records: the third is the last text once
    more, selected through the padding entry's position -1, which is the
    position of no record. *)
Lemma padding_selected_above_flt_max :
  (Z.of_nat (length sample_texts) < 3)%Z /\
  sample_index "Ariyalur rainfall" 3 =
    Ok ([(1 # 5)%Q; (7 # 10)%Q; FLT_MAX], [1%Z; 0%Z; (-1)%Z]) /\
  ~ real_position sample_texts (-1) /\
  exists first last,
    sample_texts = [first; last] /\
    retrieve_documents "Ariyalur rainfall" sample_model sample_index sample_texts 3
      TWO_POW_128 = Ok [last; first; last] /\
    select_docs sample_texts TWO_POW_128 [((-1)%Z, FLT_MAX)] = Ok [last] /\
    ~ NoDup [last; first; last] /\
    length sample_texts < length [last; first; last].
Proof.
  split; [simpl; lia|]. split; [reflexivity|].
  split; [unfold real_position; simpl; lia|].
  eexists _, _. split; [reflexivity|]. split; [reflexivity|]. split; [reflexivity|].
  split; [|simpl; lia].
  intros Hnd. apply NoDup_cons in Hnd as [Hnin _]. apply Hnin.
  apply list_elem_of_In. right. left. reflexivity.
Qed.

(** *** Response composer: the fixed replies *)

Section FixedReplies.

Context {F R : Type} `{PyFloat F}.

(** C6. The two special cases come first and in this order: a query whose
    normalized form is a greeting gets the greeting text, one whose
    normalized form is the identity question gets the identity text; both
    are plain texts without a table, whatever documents were retrieved. *)
Theorem special_cases_first (query : string) (docs : list string) (data : list R) :
  (py_in_list (normalize query) GREETINGS = true ->
   generate_response (F:=F) query docs data = Ok (Reply GREETING_REPLY)) /\
  (normalize query = "who are you" ->
   generate_response (F:=F) query docs data = Ok (Reply IDENTITY_REPLY)).
Proof.
  unfold generate_response. split.
  - intros ->. reflexivity.
  - intros ->. reflexivity.
Qed.

Lemma py_in_here (needle rest : string) : py_in needle (needle +:+ rest) = true.
Proof.
  destruct needle as [|c needle].
  - rewrite append_nil_l. destruct rest; reflexivity.
  - rewrite append_cons. cbn [py_in]. rewrite <- append_cons.
    now rewrite prefix_append.
Qed.

Lemma py_in_middle (before needle rest : string) :
  py_in needle (before +:+ needle +:+ rest) = true.
Proof.
  induction before as [|c before IH].
  - rewrite append_nil_l. apply py_in_here.
  - rewrite append_cons. cbn [py_in]. rewrite IH. apply orb_true_r.
Qed.

(** C7. A query that is neither a greeting nor the identity question, with
    no retrieved document, gets the fallback text: a plain text, so without
    table rows, that quotes the query as it was typed. *)
Theorem fallback_echoes_query (query : string) (data : list R) :
  py_in_list (normalize query) GREETINGS = false ->
  normalize query <> "who are you" ->
  generate_response (F:=F) query [] data
  = Ok (Reply ("Sorry, I couldn't find relevant data for '" +:+ query
               +:+ "'. Please try a query like 'Ariyalur rainfall in 2020'.")) /\
  py_in query (fallback_reply query) = true /\
  response_rows (Reply (F:=F) (fallback_reply query)) = [].
Proof.
  intros Hg Hi. unfold generate_response. rewrite Hg.
  apply String.eqb_neq in Hi. rewrite Hi.
  repeat split. apply py_in_middle.
Qed.

End FixedReplies.

Lemma special_cases_first_witness :
  (py_in_list (normalize "  Hello ") GREETINGS = true /\
   generate_response (F:=sample_float) "  Hello " sample_texts ([] : list unit)
   = Ok (Reply GREETING_REPLY)) /\
  (normalize "Who are you" = "who are you" /\
   generate_response (F:=sample_float) "Who are you" sample_texts ([] : list unit)
   = Ok (Reply IDENTITY_REPLY)).
Proof.
  split.
  - split; [reflexivity|].
    apply (special_cases_first (F:=sample_float) "  Hello " sample_texts []). reflexivity.
  - split; [reflexivity|].
    apply (special_cases_first (F:=sample_float) "Who are you" sample_texts []). reflexivity.
Defined.

Lemma fallback_echoes_query_witness :
  (py_in_list (normalize "Xyzzy Quux") GREETINGS = false /\
   normalize "Xyzzy Quux" <> "who are you") /\
  generate_response (F:=sample_float) "Xyzzy Quux" [] ([] : list unit)
  = Ok (Reply "Sorry, I couldn't find relevant data for 'Xyzzy Quux'. Please try a query like 'Ariyalur rainfall in 2020'.") /\
  py_in "Xyzzy Quux" (fallback_reply "Xyzzy Quux") = true /\
  response_rows (Reply (F:=sample_float) (fallback_reply "Xyzzy Quux")) = [].
Proof.
  split; [split; [reflexivity | discriminate]|].
  apply (fallback_echoes_query (F:=sample_float) "Xyzzy Quux" ([] : list unit));
    [reflexivity | discriminate].
Defined.

(** *** Response composer: table and chart *)

Section Composer.

Context {F R : Type} `{PyFloat F}.

(** What the loop over the documents returns: the parsed mappings after the
    rows it started with, one per document and in order, and after the chart
    items it started with one item per document if a chart is collected. *)
Lemma parse_docs_ok (b : bool) (docs : list string) (rows0 : list (gmap string string))
    (items0 : list (chart_item F)) rows items :
  parse_docs b docs rows0 items0 = Ok (rows, items) ->
  exists rows' items',
    rows = rows0 ++ rows' /\ items = items0 ++ items' /\
    Forall2 (fun doc fields => parse_doc doc = Ok fields) docs rows' /\
    (if b then Forall2 (fun fields item => chart_entry fields = Ok item) rows' items'
     else items' = []).
Proof.
  revert rows0 items0.
  induction docs as [|doc docs IH]; intros rows0 items0 Hp; cbn [parse_docs] in Hp.
  - injection Hp as <- <-. exists [], []. rewrite !app_nil_r.
    repeat split; [constructor | destruct b; [constructor | reflexivity]].
  - destruct (parse_doc doc) as [fields|e] eqn:Hd; [|discriminate]. cbn in Hp.
    destruct b.
    + destruct (chart_entry fields) as [item|e] eqn:Hc; [|discriminate]. cbn in Hp.
      destruct (IH _ _ Hp) as (rows' & items' & -> & -> & Hall & Hch).
      exists (fields :: rows'), (item :: items'). rewrite <- !app_assoc.
      repeat split; now constructor.
    + destruct (IH _ _ Hp) as (rows' & items' & -> & -> & Hall & ->).
      exists (fields :: rows'), []. rewrite <- !app_assoc.
      repeat split; now constructor.
Qed.

Lemma parse_docs_total (b : bool) (docs : list string)
    (rows0 : list (gmap string string)) (items0 : list (chart_item F)) :
  Forall (fun doc => doc_composes F b doc = true) docs ->
  exists rows items, parse_docs b docs rows0 items0 = Ok (rows, items).
Proof.
  revert rows0 items0.
  induction docs as [|doc docs IH]; intros rows0 items0 Hall; cbn [parse_docs].
  - now exists rows0, items0.
  - apply Forall_cons_1 in Hall as [Hdoc Hall]. unfold doc_composes in Hdoc.
    destruct (parse_doc doc) as [fields|e]; [|discriminate]. cbn.
    apply andb_prop in Hdoc as [_ Hc]. destruct b.
    + destruct (chart_entry fields) as [item|e]; [|discriminate]. cbn. apply IH, Hall.
    + apply IH, Hall.
Qed.

(** What the loop over the rows returns: one rendered row per mapping. *)
Lemma render_rows_ok (rows : list (gmap string string)) (done0 trs : list table_row) :
  render_rows rows done0 = Ok trs ->
  exists trs', trs = done0 ++ trs' /\
    Forall2 (fun fields tr => render_row fields = Ok tr) rows trs'.
Proof.
  revert done0.
  induction rows as [|fields rows IH]; intros done0 Hr; cbn [render_rows] in Hr.
  - injection Hr as <-. exists []. rewrite app_nil_r. split; [reflexivity | constructor].
  - destruct (render_row fields) as [tr|e] eqn:Hf; [|discriminate]. cbn in Hr.
    destruct (IH _ Hr) as (trs' & -> & Hall).
    exists (tr :: trs'). rewrite <- app_assoc. split; [reflexivity | now constructor].
Qed.

Lemma render_rows_total (rows : list (gmap string string)) (done0 : list table_row) :
  Forall (fun fields => is_ok (render_row fields) = true) rows ->
  exists trs, render_rows rows done0 = Ok trs.
Proof.
  revert done0.
  induction rows as [|fields rows IH]; intros done0 Hall; cbn [render_rows].
  - now exists done0.
  - apply Forall_cons_1 in Hall as [Hf Hall].
    destruct (render_row fields) as [tr|e]; [|discriminate]. cbn. apply IH, Hall.
Qed.

(** A row renders exactly when the mapping has the six expected keys. *)
Lemma render_row_keys (fields : gmap string string) :
  is_ok (render_row fields)
  = forallb (fun key => bool_decide (is_Some (fields !! key))) EXPECTED_KEYS.
Proof.
  unfold render_row, py_getitem. cbn [forallb EXPECTED_KEYS].
  destruct (fields !! "district"); [|reflexivity].
  destruct (fields !! "year"); [|reflexivity].
  destruct (fields !! "scenario"); [|reflexivity].
  destruct (fields !! "rainfall"); [|reflexivity].
  destruct (fields !! "groundwater_level"); [|reflexivity].
  destruct (fields !! "population"); reflexivity.
Qed.

(** The chart item and the rendered row of one mapping agree. *)
Lemma chart_entry_row (fields : gmap string string) (item : chart_item F) (tr : table_row) :
  chart_entry fields = Ok item -> render_row fields = Ok tr ->
  label item = row_label tr /\
  float_of_str (py_replace " mm" "" (td_rainfall tr)) = Some (rainfall item).
Proof.
  unfold chart_entry, render_row, py_getitem, row_label.
  destruct (fields !! "district"); [|discriminate].
  destruct (fields !! "year"); [|discriminate].
  destruct (fields !! "scenario"); [|discriminate].
  destruct (fields !! "rainfall") as [rf|]; [|discriminate].
  destruct (fields !! "groundwater_level"); [|discriminate].
  destruct (fields !! "population"); [|discriminate]. cbn.
  destruct (float_of_str (py_replace " mm" "" rf)) as [x|] eqn:Hx; [|discriminate].
  intros [= <-] [= <-]. cbn. split; [reflexivity | assumption].
Qed.

Lemma chart_rows_agree (rows : list (gmap string string)) (items : list (chart_item F))
    (trs : list table_row) :
  Forall2 (fun fields item => chart_entry fields = Ok item) rows items ->
  Forall2 (fun fields tr => render_row fields = Ok tr) rows trs ->
  map label items = map row_label trs /\
  Forall2 (fun tr x => float_of_str (py_replace " mm" "" (td_rainfall tr)) = Some x)
          trs (map rainfall items).
Proof.
  intros Hc. revert trs.
  induction Hc as [|fields item rows items Hi Hc IH]; intros trs Hr;
    inversion Hr as [|? tr ? trs' Ht Hr']; subst; cbn.
  - split; constructor.
  - destruct (chart_entry_row _ _ _ Hi Ht) as [Hl Hx].
    destruct (IH _ Hr') as [Hls Hxs].
    split; [now rewrite Hl, Hls | now constructor].
Qed.

Lemma Forall2_In_l {A B : Type} (P : A -> B -> Prop) (l : list A) (k : list B) (x : A) :
  Forall2 P l k -> In x l -> exists y, In y k /\ P x y.
Proof.
  induction 1 as [|a b l k Hab Hlk IH]; intros Hin; [destruct Hin|].
  destruct Hin as [->|Hin].
  - exists b. split; [now left | assumption].
  - destruct (IH Hin) as (y & Hy & Hp). exists y. split; [now right | assumption].
Qed.

(** Every response of the general path has one row per document, in
    order, each the rendering of what the document parses to. *)
Lemma response_rows_of_docs (query : string) (docs : list string) (data : list R)
    (r : response F) :
  is_special query = false ->
  generate_response query docs data = Ok r ->
  Forall2 (fun doc tr => exists fields, parse_doc doc = Ok fields /\
                                        render_row fields = Ok tr)
          docs (response_rows r).
Proof.
  unfold is_special, generate_response. intros [Hg Hi]%orb_false_elim.
  rewrite Hg, Hi. destruct docs as [|doc docs].
  - intros [= <-]. constructor.
  - set (b := py_in "ariyalur" (normalize query)).
    destruct (parse_docs b (doc :: docs) [] []) as [[rows items]|e] eqn:Hp;
      [|discriminate]. cbn.
    destruct (render_rows rows []) as [trs|e] eqn:Hr; [|discriminate]. cbn.
    intros [= <-]. cbn.
    destruct (parse_docs_ok _ _ _ _ _ _ Hp) as (rows' & items' & -> & _ & Hall & _).
    destruct (render_rows_ok _ _ _ Hr) as (trs' & -> & Hrows). cbn in *.
    clear -Hall Hrows. revert trs' Hrows.
    induction Hall as [|d fields ds rows Hd Hall IH]; intros trs' Hrows;
      inversion Hrows as [|? tr ? trs'' Ht Hrows']; subst; constructor.
    + now exists fields.
    + now apply IH.
Qed.

(** C9. On the general path (the query is neither a greeting nor the
    identity question), a retrieved document that does not parse into a
    mapping with the six expected keys makes the whole composition raise;
    and every response that is produced has one row per retrieved document,
    in order: no document is left out of the table. *)
Theorem grammar_violation_raises (query : string) (docs : list string) (data : list R) :
  is_special query = false ->
  ((exists doc, In doc docs /\ parses_to_key_set doc = false) ->
   exists e, generate_response (F:=F) query docs data = Raise e) /\
  (forall r, generate_response (F:=F) query docs data = Ok r ->
     Forall2 (fun doc tr => exists fields, parse_doc doc = Ok fields /\
                                           render_row fields = Ok tr)
             docs (response_rows r)).
Proof.
  intros Hs. split.
  - intros (doc & Hin & Hbad).
    destruct (generate_response query docs data) as [r|e] eqn:Hg; [|now exists e].
    pose proof (response_rows_of_docs _ _ _ _ Hs Hg) as Hall.
    destruct (Forall2_In_l _ _ _ _ Hall Hin) as (tr & _ & fields & Hd & Ht).
    unfold parses_to_key_set in Hbad. rewrite Hd, <- render_row_keys, Ht in Hbad.
    discriminate.
  - intros r. now apply response_rows_of_docs.
Qed.

(** Documents that all go through the loop and the table give a response,
    with a chart exactly when the query has the district token, and the
    chart follows the rows. *)
Lemma compose_total (query : string) (docs : list string) (data : list R) :
  docs <> [] ->
  Forall (fun doc => doc_composes F (py_in "ariyalur" (normalize query)) doc = true) docs ->
  exists r,
    generate_response (F:=F) query docs data = Ok r /\
    (response_chart r <> None <->
     py_in "ariyalur" (normalize query) = true /\ response_rows r <> []) /\
    (forall c, response_chart r = Some c ->
       labels c = map row_label (response_rows r) /\
       Forall2 (fun tr x => float_of_str (py_replace " mm" "" (td_rainfall tr)) = Some x)
               (response_rows r) (dataset c) /\
       length (labels c) = length (dataset c)).
Proof.
  intros Hne Hall. unfold generate_response.
  destruct (py_in_list (normalize query) GREETINGS) eqn:Hg.
  { exists (Reply GREETING_REPLY). cbn. repeat split; try congruence; tauto. }
  destruct (String.eqb (normalize query) "who are you") eqn:Hi.
  { exists (Reply IDENTITY_REPLY). cbn. repeat split; try congruence; tauto. }
  destruct docs as [|doc docs]; [congruence|]. clear Hne.
  set (b := py_in "ariyalur" (normalize query)) in *.
  destruct (parse_docs_total b (doc :: docs) [] [] Hall) as (rows & items & Hp).
  rewrite Hp. cbn.
  destruct (parse_docs_ok _ _ _ _ _ _ Hp) as (rows' & items' & -> & -> & Hparse & Hch).
  cbn in *.
  assert (Hrender : Forall (fun fields => is_ok (render_row fields) = true) rows').
  { clear -Hall Hparse.
    induction Hparse as [|d fields ds rows Hd Hparse IH]; constructor.
    - apply Forall_cons_1 in Hall as [Hdoc _]. unfold doc_composes in Hdoc.
      rewrite Hd in Hdoc. now apply andb_prop in Hdoc as [Hdoc _].
    - apply IH. now apply Forall_cons_1 in Hall as [_ Hall]. }
  destruct (render_rows_total rows' [] Hrender) as (trs & Hr). rewrite Hr. cbn.
  destruct (render_rows_ok _ _ _ Hr) as (trs' & -> & Hrows). cbn in *.
  assert (Htrs : trs' <> []).
  { apply Forall2_length in Hparse, Hrows. destruct trs'; [|discriminate].
    cbn in *. lia. }
  eexists. split; [reflexivity|]. cbn. destruct b.
  - assert (Hitems : items' <> []).
    { apply Forall2_length in Hparse, Hch. destruct items'; [|discriminate].
      cbn in *. lia. }
    rewrite bool_decide_eq_false_2 by assumption. cbn.
    destruct (chart_rows_agree _ _ _ Hch Hrows) as [Hlabels Hvalues].
    split; [split; [now intros _ | discriminate]|].
    intros c [= <-]. cbn. repeat split; try assumption.
    now rewrite !length_map.
  - cbn. split; [split; [congruence | intros [Hb _]; discriminate]|].
    intros c [=].
Qed.

(** A response of the general path means every document went through. *)
Lemma compose_ok_composes (query : string) (docs : list string) (data : list R)
    (r : response F) :
  is_special query = false ->
  generate_response query docs data = Ok r ->
  Forall (fun doc => doc_composes F (py_in "ariyalur" (normalize query)) doc = true) docs.
Proof.
  unfold is_special, generate_response. intros [Hg Hi]%orb_false_elim.
  rewrite Hg, Hi. destruct docs as [|doc docs]; [constructor|].
  set (b := py_in "ariyalur" (normalize query)).
  destruct (parse_docs b (doc :: docs) [] []) as [[rows items]|e] eqn:Hp;
    [|discriminate]. cbn.
  destruct (render_rows rows []) as [trs|e] eqn:Hr; [|discriminate]. intros _.
  destruct (parse_docs_ok _ _ _ _ _ _ Hp) as (rows' & items' & -> & _ & Hall & Hch).
  destruct (render_rows_ok _ _ _ Hr) as (trs' & _ & Hrows). cbn in *.
  clear -Hall Hch Hrows. revert items' trs' Hch Hrows.
  induction Hall as [|d fields ds rows Hd Hall IH]; intros items' trs' Hch Hrows;
    [constructor|].
  inversion Hrows as [|? tr ? trs'' Ht Hrows']; subst.
  assert (Hdoc : doc_composes F b d = true /\
                 exists items'', if b then Forall2 (fun fields item => chart_entry fields = Ok item)
                                              rows items''
                                 else items'' = []).
  { unfold doc_composes. rewrite Hd, Ht. cbn. destruct b.
    - inversion Hch as [|? item ? items'' Hi' Hch']; subst. rewrite Hi'.
      split; [reflexivity | now exists items''].
    - split; [reflexivity | now exists []]. }
  destruct Hdoc as [Hdoc (items'' & Hch')].
  constructor; [exact Hdoc | exact (IH _ _ Hch' Hrows')].
Qed.





End Composer.

Lemma grammar_violation_raises_witness :
  is_special "rainfall data" = false /\
  (exists doc, In doc (sample_texts ++ ["District: Ariyalur, Year: 2020"]) /\
               parses_to_key_set doc = false) /\
  exists e, generate_response (F:=sample_float) "rainfall data"
              (sample_texts ++ ["District: Ariyalur, Year: 2020"]) ([] : list unit)
            = Raise e.
Proof.
  assert (Hbad : exists doc, In doc (sample_texts ++ ["District: Ariyalur, Year: 2020"]) /\
                             parses_to_key_set doc = false).
  { exists "District: Ariyalur, Year: 2020". split; [simpl; tauto | reflexivity]. }
  split; [reflexivity|]. split; [exact Hbad|].
  exact (proj1 (grammar_violation_raises (F:=sample_float) "rainfall data"
                  (sample_texts ++ ["District: Ariyalur, Year: 2020"]) ([] : list unit)
                  eq_refl) Hbad).
Defined.


(** The response to the sample query, in full. *)
Example sample_response :
  generate_response (F:=sample_float) "Ariyalur rainfall in 2020" sample_texts
    ([] : list unit)
  = Ok (TableReply "Ariyalur rainfall in 2020"
          [{| td_district := "Ariyalur"; td_year := "2020"; td_scenario := "baseline";
              td_rainfall := "1021.5 mm"; td_groundwater_level := "12.3 m";
              td_population := "754894" |};
           {| td_district := "Ariyalur"; td_year := "2030"; td_scenario := "dry";
              td_rainfall := "987.25 mm"; td_groundwater_level := "12.3 m";
              td_population := "754894" |}]
          (Some {| labels := ["2020 (baseline)"; "2030 (dry)"];
                   dataset := [F_1021_5; F_987_25] |})).
Proof. vm_compute. reflexivity. Qed.

(** *** The [/chat] handler *)

Section Stripping.

Lemma py_in_occurrence (needle hay : string) :
  py_in needle hay = true <-> exists a b, hay = a +:+ needle +:+ b.
Proof.
  split.
  - induction hay as [|c hay IH]; cbn [py_in]; intros [Hp|Hin]%orb_prop.
    + exists "", (drop_chars (String.length needle) ""). now apply prefix_split.
    + discriminate.
    + exists "", (drop_chars (String.length needle) (String c hay)).
      now apply prefix_split.
    + destruct (IH Hin) as (a & b & ->). now exists (String c a), b.
  - intros (a & b & ->). apply py_in_middle.
Qed.

Lemma py_lstrip_keeps (a needle b : string) :
  starts_nonspace needle = true ->
  exists a', py_lstrip (a +:+ needle +:+ b) = a' +:+ needle +:+ b.
Proof.
  intros Hn. induction a as [|c a IH].
  - exists "". rewrite !append_nil_l. destruct needle as [|d needle]; [discriminate|].
    cbn in Hn. apply negb_true_iff in Hn. rewrite append_cons. cbn. now rewrite Hn.
  - rewrite append_cons. cbn [py_lstrip]. destruct (py_isspace c).
    + exact IH.
    + now exists (String c a).
Qed.

Lemma py_rstrip_cons (c : ascii) (s : string) :
  py_rstrip s <> "" -> py_rstrip (String c s) = String c (py_rstrip s).
Proof. cbn [py_rstrip]. destruct (py_rstrip s); [congruence | reflexivity]. Qed.

Lemma py_rstrip_needle (needle b : string) :
  ends_nonspace needle = true ->
  exists b', py_rstrip (needle +:+ b) = needle +:+ b'.
Proof.
  induction needle as [|c needle IH]; [discriminate|]. intros Hn.
  destruct needle as [|d needle].
  - cbn in Hn. apply negb_true_iff in Hn. exists (py_rstrip b).
    rewrite !append_cons, !append_nil_l. cbn [py_rstrip]. rewrite Hn.
    now destruct (py_rstrip b).
  - destruct (IH Hn) as (b' & Hb). exists b'.
    rewrite append_cons, py_rstrip_cons; [now rewrite Hb|].
    rewrite Hb, append_cons. discriminate.
Qed.

Lemma py_rstrip_keeps (a needle b : string) :
  ends_nonspace needle = true ->
  exists b', py_rstrip (a +:+ needle +:+ b) = a +:+ needle +:+ b'.
Proof.
  intros Hn. destruct (py_rstrip_needle needle b Hn) as (b' & Hb). exists b'.
  induction a as [|c a IH]; [exact Hb|].
  rewrite append_cons, py_rstrip_cons; [now rewrite IH|].
  rewrite IH. destruct a; [|rewrite append_cons; discriminate].
  rewrite append_nil_l. destruct needle; [discriminate | rewrite append_cons; discriminate].
Qed.

(** Stripping a text does not remove an occurrence of a keyword that has no
    white space at its ends. *)
Lemma py_in_strip (needle hay : string) :
  starts_nonspace needle = true -> ends_nonspace needle = true ->
  py_in needle hay = true -> py_in needle (py_strip hay) = true.
Proof.
  intros Hs He (a & b & ->)%py_in_occurrence. unfold py_strip.
  destruct (py_lstrip_keeps a needle b Hs) as (a' & ->).
  destruct (py_rstrip_keeps a' needle b He) as (b' & ->).
  apply py_in_middle.
Qed.

Lemma forbidden_keywords_edges :
  forallb (fun kw => starts_nonspace kw && ends_nonspace kw) FORBIDDEN_KEYWORDS = true.
Proof. reflexivity. Qed.

End Stripping.

Section Chat.

Context {E F D : Type} `{PyFloat F} `{Distance D}.

(** C2. A query string that contains a forbidden keyword, in any letter
    case, gets the refusal text with status 400, whatever the dataset, the
    model and the index are; the handler has scanned the query and has
    called neither the retriever nor the composer. The refusal text is not
    the fallback text of any query. *)
Theorem forbidden_query_refused (ctx : chat_context F E D)
    (request_json : gmap string jvalue) (q keyword : string) :
  request_json !! "query" = Some (JStr q) ->
  In keyword FORBIDDEN_KEYWORDS ->
  py_in keyword (py_lower q) = true ->
  chat ctx request_json
  = {| reply := Message "Wrong question you asked."; status := 400;
       calls := [CheckKeywords (normalize q)] |} /\
  (forall q', "Wrong question you asked." <> fallback_reply q').
Proof.
  intros Hq Hkw Hin. split; [|discriminate].
  pose proof forbidden_keywords_edges as Hedges.
  rewrite forallb_forall in Hedges.
  apply Hedges in Hkw as Hedge. apply andb_prop in Hedge as [Hs He].
  unfold chat. rewrite Hq. cbn [from_option id py_truthy].
  assert (Hne : String.eqb q "" = false).
  { destruct q; [|reflexivity]. cbn in Hin. rewrite orb_false_r in Hin.
    destruct keyword; discriminate. }
  rewrite Hne. cbn [negb].
  assert (Hex : existsb (fun kw => py_in kw (normalize q)) FORBIDDEN_KEYWORDS = true).
  { apply existsb_exists. exists keyword. split; [assumption|].
    now apply py_in_strip. }
  now rewrite Hex.
Qed.

(** C10 (as amended). A request whose query field is missing, null or the
    empty string sets nothing in motion: no scan for keywords, no
    retrieval, no composition. When its body is a JSON object the answer is
    the text [Please provide a query.] with status 400, a client error.
    When its body is anything else ([request.json] raises, or gives a value
    without a [get] method) the [except] branch answers with the exception
    and status 500. *)
Theorem missing_query_rejected (ctx : chat_context F E D) (body : request_body) :
  query_field body = None \/
  query_field body = Some JNull \/
  query_field body = Some (JStr "") ->
  calls (chat_request ctx body) = [] /\
  (is_json_object body = true ->
   chat_request ctx body
   = {| reply := Message "Please provide a query."; status := 400; calls := [] |} /\
   is_client_error (status (chat_request ctx body)) = true) /\
  (is_json_object body = false ->
   status (chat_request ctx body) = 500%Z /\
   exists e, reply (chat_request ctx body) = Failure e).
Proof.
  intros Hq.
  assert (Hother : forall e : exn,
            let outcome := {| reply := Failure (F:=F) e; status := 500; calls := [] |} in
            calls outcome = [] /\
            (false = true ->
             outcome
             = {| reply := Message "Please provide a query."; status := 400; calls := [] |} /\
             is_client_error (status outcome) = true) /\
            (false = false ->
             status outcome = 500%Z /\ exists e', reply outcome = Failure e')).
  { intros e. cbn. split; [reflexivity|]. split; [discriminate|].
    intros _. split; [reflexivity | now exists e]. }
  destruct body as [|[| | | | | |items]]; try apply Hother.
  cbn [chat_request is_json_object query_field] in *. unfold chat.
  destruct Hq as [-> | [-> | ->]]; cbn;
    (split; [reflexivity | split; [intros _; split; reflexivity | discriminate]]).
Qed.

End Chat.

Lemma forbidden_query_refused_witness :
  (({[ "query" := JStr "Please BYPASS the Admin checks" ]} : gmap string jvalue) !! "query"
     = Some (JStr "Please BYPASS the Admin checks") /\
   In "bypass" FORBIDDEN_KEYWORDS /\
   py_in "bypass" (py_lower "Please BYPASS the Admin checks") = true) /\
  chat sample_context {[ "query" := JStr "Please BYPASS the Admin checks" ]}
  = {| reply := Message "Wrong question you asked."; status := 400;
       calls := [CheckKeywords (normalize "Please BYPASS the Admin checks")] |} /\
  (forall q', "Wrong question you asked." <> fallback_reply q').
Proof.
  assert (Hin : In "bypass" FORBIDDEN_KEYWORDS) by (simpl; tauto).
  split; [split; [reflexivity | split; [exact Hin | reflexivity]]|].
  exact (forbidden_query_refused sample_context
           {[ "query" := JStr "Please BYPASS the Admin checks" ]}
           "Please BYPASS the Admin checks" "bypass" eq_refl Hin eq_refl).
Defined.

Lemma missing_query_rejected_witness :
  (query_field (JsonBody (JDict [("question", JStr "Ariyalur rainfall in 2020")])) = None \/
   query_field (JsonBody (JDict [("question", JStr "Ariyalur rainfall in 2020")]))
   = Some JNull \/
   query_field (JsonBody (JDict [("question", JStr "Ariyalur rainfall in 2020")]))
   = Some (JStr "")) /\
  calls (chat_request sample_context
           (JsonBody (JDict [("question", JStr "Ariyalur rainfall in 2020")]))) = [] /\
  (is_json_object (JsonBody (JDict [("question", JStr "Ariyalur rainfall in 2020")])) = true ->
   chat_request sample_context
     (JsonBody (JDict [("question", JStr "Ariyalur rainfall in 2020")]))
   = {| reply := Message "Please provide a query."; status := 400; calls := [] |} /\
   is_client_error
     (status (chat_request sample_context
                (JsonBody (JDict [("question", JStr "Ariyalur rainfall in 2020")])))) = true) /\
  (is_json_object (JsonBody (JDict [("question", JStr "Ariyalur rainfall in 2020")])) = false ->
   status (chat_request sample_context
             (JsonBody (JDict [("question", JStr "Ariyalur rainfall in 2020")]))) = 500%Z /\
   exists e, reply (chat_request sample_context
                      (JsonBody (JDict [("question", JStr "Ariyalur rainfall in 2020")])))
             = Failure e).
Proof.
  assert (Hq : query_field (JsonBody (JDict [("question", JStr "Ariyalur rainfall in 2020")]))
               = None) by reflexivity.
  split; [left; exact Hq|].
  exact (missing_query_rejected sample_context
           (JsonBody (JDict [("question", JStr "Ariyalur rainfall in 2020")]))
           (or_introl Hq)).
Defined.

(** Against C10 as it is worded for every request: a request whose body is
    the JSON array [[1]] has no query field, yet it is answered with status
    500, which is no client error, and with the exception instead of the
    fixed text. The same holds of the body [null] and of a body that is not
    JSON. *)
Lemma body_without_fields_gets_500 :
  query_field (JsonBody (JList [JInt 1])) = None /\
  chat_request sample_context (JsonBody (JList [JInt 1]))
  = {| reply := Failure (AttributeError "object has no attribute 'get'");
       status := 500; calls := [] |} /\
  is_client_error (status (chat_request sample_context (JsonBody (JList [JInt 1])))) = false /\
  reply (chat_request sample_context (JsonBody (JList [JInt 1])))
  <> Message "Please provide a query." /\
  query_field (JsonBody JNull) = None /\
  status (chat_request sample_context (JsonBody JNull)) = 500%Z /\
  query_field NotJson = None /\
  status (chat_request sample_context NotJson) = 500%Z.
Proof.
  split; [reflexivity|]. split; [reflexivity|]. split; [reflexivity|].
  split; [discriminate|]. repeat split; reflexivity.
Qed.

(** A request that passes the keyword scan goes through the retriever and
    the composer. *)
Example sample_chat :
  calls (chat sample_context {[ "query" := JStr "Ariyalur rainfall in 2020" ]})
  = [CheckKeywords "ariyalur rainfall in 2020";
     CallRetriever "Ariyalur rainfall in 2020";
     CallComposer "Ariyalur rainfall in 2020" (rev sample_texts)] /\
  status (chat sample_context {[ "query" := JStr "Ariyalur rainfall in 2020" ]}) = 200%Z.
Proof. vm_compute. split; reflexivity. Qed.

(** Against C9 as it is worded for every query: the fixed replies come
    before any parsing, so a greeting is answered with the greeting text
    even when a retrieved document does not parse. *)
Lemma greeting_skips_parsing :
  (exists doc, In doc ["no separators here"] /\ parses_to_key_set doc = false) /\
  ~ (exists e, generate_response (F:=sample_float) "hello" ["no separators here"]
                 ([] : list unit) = Raise e).
Proof.
  split.
  - exists "no separators here". split; [simpl; tauto | reflexivity].
  - intros (e & He). discriminate He.
Qed.

(** The grammar at its edge: a rainfall value that is a string ending in a
    comma (not a float, so not a Record of the data model) holds no
    separator, yet with its unit it makes one, and the text no longer
    parses. *)
Example comma_before_unit_breaks_grammar :
  separator_free "5," = true /\
  parse_doc (canonical_text "Ariyalur" "11.14" "79.08" "2020" "baseline" "754894" "5," "12.3")
  = Raise (ValueError "not enough values to unpack (expected 2, got 1)").
Proof. split; reflexivity. Qed.

(** ** Further properties *)

(** *** The projector on dicts and on Records *)

Section Projector.

Context {F : Type} `{PyFloatLaws F}.

Lemma data_to_text_keys (data : gmap string (pyval F)) :
  is_ok (data_to_text data)
  = forallb (fun key => bool_decide (is_Some (data !! key))) REQUIRED_KEYS.
Proof.
  unfold data_to_text, py_getitem. cbn [forallb REQUIRED_KEYS].
  destruct (data !! "district"); [|reflexivity].
  destruct (data !! "lat"); [|reflexivity].
  destruct (data !! "lon"); [|reflexivity].
  destruct (data !! "year"); [|reflexivity].
  destruct (data !! "scenario"); [|reflexivity].
  destruct (data !! "population_estimate"); [|reflexivity].
  destruct (data !! "avg_annual_rainfall_mm"); [|reflexivity].
  destruct (data !! "groundwater_level_m"); reflexivity.
Qed.

(** X1. The projector succeeds exactly on a dict that has the eight keys it
    reads, whatever else the dict holds; when it raises, it raises
    [KeyError] for a key that is missing. *)
Theorem data_to_text_missing_key (data : gmap string (pyval F)) :
  (is_ok (data_to_text data) = true <->
   Forall (fun key => is_Some (data !! key)) REQUIRED_KEYS) /\
  (forall e, data_to_text data = Raise e ->
     exists key, In key REQUIRED_KEYS /\ e = KeyError key /\ data !! key = None).
Proof.
  split.
  - rewrite data_to_text_keys, forallb_forall, Forall_forall.
    split; intros Hk key Hin.
    + apply list_elem_of_In in Hin. exact (bool_decide_eq_true_1 _ (Hk key Hin)).
    + apply bool_decide_eq_true_2, Hk. now apply list_elem_of_In.
  - unfold data_to_text, py_getitem.
    destruct (data !! "district") eqn:H1; cbn;
      [|intros e [= <-]; exists "district"; simpl; tauto].
    destruct (data !! "lat") eqn:H2; cbn;
      [|intros e [= <-]; exists "lat"; simpl; tauto].
    destruct (data !! "lon") eqn:H3; cbn;
      [|intros e [= <-]; exists "lon"; simpl; tauto].
    destruct (data !! "year") eqn:H4; cbn;
      [|intros e [= <-]; exists "year"; simpl; tauto].
    destruct (data !! "scenario") eqn:H5; cbn;
      [|intros e [= <-]; exists "scenario"; simpl; tauto].
    destruct (data !! "population_estimate") eqn:H6; cbn;
      [|intros e [= <-]; exists "population_estimate"; simpl; tauto].
    destruct (data !! "avg_annual_rainfall_mm") eqn:H7; cbn;
      [|intros e [= <-]; exists "avg_annual_rainfall_mm"; simpl; tauto].
    destruct (data !! "groundwater_level_m") eqn:H8; cbn;
      [|intros e [= <-]; exists "groundwater_level_m"; simpl; tauto].
    intros e. discriminate.
Qed.

Lemma comma_free_values (r : district_record F) :
  comma_free r = true ->
  Forall (fun v => py_in ", " v = false) (rendered_fields r).
Proof.
  unfold comma_free. rewrite forallb_forall. intros Hfree.
  apply Forall_forall. intros v Hv. apply negb_true_iff, Hfree.
  now apply list_elem_of_In.
Qed.

(** The text of a Record parses back to its fields as soon as no rendered
    value holds the field separator. *)
Lemma parse_record_text (r : district_record F) :
  comma_free r = true ->
  parse_doc (record_text r)
  = Ok (canonical_fields (district r) (float_str (lat r)) (float_str (lon r))
          (pretty (year r)) (scenario r) (pretty (population_estimate r))
          (float_str (avg_annual_rainfall_mm r)) (float_str (groundwater_level_m r))).
Proof.
  intros Hfree. apply parse_canonical_text.
  - exact (comma_free_values r Hfree).
  - apply float_text_no_comma_end, float_str_alphabet.
  - apply float_text_no_comma_end, float_str_alphabet.
Qed.

(** X2. The round trip does not need the values to be free of [": "]: each part
    is split at its first [": "] only, which is the one after the key. A
    Record whose rendered values hold no [", "] is projected to a text that
    parses back to its eight fields. *)
Theorem roundtrip_needs_comma_free_only (r : district_record F) :
  comma_free r = true ->
  exists text,
    data_to_text (record_dict r) = Ok text /\
    parse_doc text
    = Ok (canonical_fields (district r) (float_str (lat r)) (float_str (lon r))
            (pretty (year r)) (scenario r) (pretty (population_estimate r))
            (float_str (avg_annual_rainfall_mm r))
            (float_str (groundwater_level_m r))).
Proof.
  intros Hfree. eexists. split; [apply data_to_text_record|].
  now apply parse_record_text.
Qed.

Lemma append_cancel_r (a b t : string) : a +:+ t = b +:+ t -> a = b.
Proof.
  revert b. induction a as [|c a IH]; intros [|d b] Heq.
  - reflexivity.
  - exfalso. apply (f_equal String.length) in Heq.
    rewrite !length_append in Heq. simpl in Heq. lia.
  - exfalso. apply (f_equal String.length) in Heq.
    rewrite !length_append in Heq. simpl in Heq. lia.
  - rewrite !append_cons in Heq. injection Heq as -> Heq. f_equal. now apply IH.
Qed.

Lemma Ok_inj {A : Type} (a b : A) : Ok a = Ok b -> a = b.
Proof. now intros [= ->]. Qed.

Lemma float_str_inj (x y : F) : float_str x = float_str y -> x = y.
Proof.
  intros Heq. apply (f_equal float_of_str) in Heq.
  rewrite !float_of_str_str in Heq. now injection Heq.
Qed.

(** X3. The Canonical Text identifies the Record: two Records whose rendered
    values hold no field separator and that are projected to the same text
    are equal. *)
Theorem data_to_text_injective (r1 r2 : district_record F) :
  comma_free r1 = true -> comma_free r2 = true ->
  data_to_text (record_dict r1) = data_to_text (record_dict r2) ->
  r1 = r2.
Proof.
  intros H1 H2 Heq. rewrite !data_to_text_record in Heq. apply Ok_inj in Heq.
  pose proof (parse_record_text r1 H1) as P1.
  pose proof (parse_record_text r2 H2) as P2.
  unfold record_text in P1, P2. rewrite Heq, P2 in P1. apply Ok_inj in P1.
  rename P1 into P.
  assert (Hl : forall key, canonical_fields (district r2) (float_str (lat r2))
                  (float_str (lon r2)) (pretty (year r2)) (scenario r2)
                  (pretty (population_estimate r2))
                  (float_str (avg_annual_rainfall_mm r2))
                  (float_str (groundwater_level_m r2)) !! key
                = canonical_fields (district r1) (float_str (lat r1))
                  (float_str (lon r1)) (pretty (year r1)) (scenario r1)
                  (pretty (population_estimate r1))
                  (float_str (avg_annual_rainfall_mm r1))
                  (float_str (groundwater_level_m r1)) !! key)
    by (intros key; now rewrite P).
  pose proof (Hl "district") as Hd. pose proof (Hl "latitude") as Hla.
  pose proof (Hl "longitude") as Hlo. pose proof (Hl "year") as Hy.
  pose proof (Hl "scenario") as Hs. pose proof (Hl "population") as Hp.
  pose proof (Hl "rainfall") as Hr. pose proof (Hl "groundwater_level") as Hg.
  clear Hl P P2 Heq.
  unfold canonical_fields in *.
  repeat match goal with
         | Hx : _ !! _ = _ !! _ |- _ =>
             progress (repeat (rewrite lookup_insert_eq in Hx
                               || rewrite lookup_insert_ne in Hx by done));
             injection Hx as Hx
         end.
  apply append_cancel_r in Hr, Hg.
  apply float_str_inj in Hla, Hlo, Hr, Hg.
  apply (inj pretty) in Hy, Hp.
  destruct r1, r2; cbn in *. congruence.
Qed.

End Projector.

Lemma roundtrip_needs_comma_free_only_witness :
  (comma_free sample_record_colon = true /\ py_in ": " (district sample_record_colon) = true) /\
  exists text,
    data_to_text (record_dict sample_record_colon) = Ok text /\
    parse_doc text
    = Ok (canonical_fields "Ariyalur: East" "11.14" "79.08" "2020" "baseline" "754894"
            "1021.5" "12.3").
Proof.
  split; [split; reflexivity|].
  exact (roundtrip_needs_comma_free_only sample_record_colon eq_refl).
Defined.

Lemma data_to_text_injective_witness :
  (comma_free sample_record = true /\
   data_to_text (record_dict sample_record) = data_to_text (record_dict sample_record)) /\
  sample_record = sample_record.
Proof.
  split; [split; reflexivity|].
  exact (data_to_text_injective sample_record sample_record eq_refl eq_refl eq_refl).
Defined.

(** *** Building the store *)

Section Store.

Context {F M Emb Idx : Type} `{PyFloat F}.

Lemma data_to_text_raise_key (data : gmap string (pyval F)) (e : exn) :
  data_to_text data = Raise e -> exists key, e = KeyError key /\ In key REQUIRED_KEYS.
Proof.
  unfold data_to_text, py_getitem.
  destruct (data !! "district"); cbn;
    [|intros [= <-]; exists "district"; simpl; tauto].
  destruct (data !! "lat"); cbn; [|intros [= <-]; exists "lat"; simpl; tauto].
  destruct (data !! "lon"); cbn; [|intros [= <-]; exists "lon"; simpl; tauto].
  destruct (data !! "year"); cbn; [|intros [= <-]; exists "year"; simpl; tauto].
  destruct (data !! "scenario"); cbn;
    [|intros [= <-]; exists "scenario"; simpl; tauto].
  destruct (data !! "population_estimate"); cbn;
    [|intros [= <-]; exists "population_estimate"; simpl; tauto].
  destruct (data !! "avg_annual_rainfall_mm"); cbn;
    [|intros [= <-]; exists "avg_annual_rainfall_mm"; simpl; tauto].
  destruct (data !! "groundwater_level_m"); cbn;
    [|intros [= <-]; exists "groundwater_level_m"; simpl; tauto].
  discriminate.
Qed.

Lemma project_all_texts (data : list (gmap string (pyval F))) (texts : list string) :
  project_all data = Ok texts ->
  Forall2 (fun entry text => data_to_text entry = Ok text) data texts.
Proof.
  revert texts. induction data as [|entry data IH]; intros texts; cbn [project_all].
  - intros [= <-]. constructor.
  - destruct (data_to_text entry) as [t|e] eqn:Ht; [|discriminate]. cbn.
    destruct (project_all data) as [ts|e]; [|discriminate]. cbn.
    intros [= <-]. constructor; [assumption | now apply IH].
Qed.

Lemma project_all_raise (data : list (gmap string (pyval F))) :
  (exists entry, In entry data /\ is_ok (data_to_text entry) = false) ->
  exists key, project_all data = Raise (KeyError key) /\ In key REQUIRED_KEYS.
Proof.
  induction data as [|entry data IH]; intros (bad & Hin & Hbad); [destruct Hin|].
  cbn [project_all]. destruct (data_to_text entry) as [t|e] eqn:Ht.
  - destruct Hin as [->|Hin]; [rewrite Ht in Hbad; discriminate|].
    destruct IH as (key & Hr & Hk); [now exists bad|].
    exists key. cbn. rewrite Hr. now split.
  - destruct (data_to_text_raise_key _ _ Ht) as (key & -> & Hk).
    exists key. now split.
Qed.

(** X4. Positional correspondence. When the store is built, [texts] has one
    entry per entry of the dataset and in the same order, the i-th being the
    Canonical Text of the i-th; and the index was built from the embeddings
    of exactly these texts. *)
Theorem create_vector_store_positions (load_model : result M)
    (encode : M -> list string -> result Emb) (build_index : Emb -> result Idx)
    (data : list (gmap string (pyval F))) (model : M) (faiss_index : Idx)
    (texts : list string) :
  create_vector_store load_model encode build_index data = Ok (model, faiss_index, texts) ->
  Forall2 (fun entry text => data_to_text entry = Ok text) data texts /\
  length texts = length data /\
  exists embeddings,
    encode model texts = Ok embeddings /\ build_index embeddings = Ok faiss_index.
Proof.
  unfold create_vector_store.
  destruct load_model as [m|e]; [|discriminate]. cbn.
  destruct (project_all data) as [ts|e] eqn:Hp; [|discriminate]. cbn.
  destruct (encode m ts) as [emb|e] eqn:He; [|discriminate]. cbn.
  destruct (build_index emb) as [idx|e] eqn:Hb; [|discriminate]. cbn.
  intros [= <- <- <-].
  pose proof (project_all_texts _ _ Hp) as Hall.
  split; [assumption|]. split; [symmetry; eapply Forall2_length; eassumption|].
  now exists emb.
Qed.

(** X5. One entry without one of the eight keys is enough for the building of
    the store to raise [KeyError], once the model is loaded: nothing is
    encoded and no index is made, whatever the other entries are. *)
Theorem create_vector_store_missing_key (load_model : result M)
    (encode : M -> list string -> result Emb) (build_index : Emb -> result Idx)
    (data : list (gmap string (pyval F))) (model : M) :
  load_model = Ok model ->
  (exists entry, In entry data /\ is_ok (data_to_text entry) = false) ->
  exists key,
    In key REQUIRED_KEYS /\
    create_vector_store load_model encode build_index data = Raise (KeyError key).
Proof.
  intros -> Hbad. destruct (project_all_raise data Hbad) as (key & Hr & Hk).
  exists key. split; [assumption|]. unfold create_vector_store. cbn. now rewrite Hr.
Qed.

End Store.

Lemma create_vector_store_positions_witness :
  create_vector_store sample_load_model sample_encode sample_build_index sample_data
    = Ok (tt, sample_texts, sample_texts) /\
  Forall2 (fun entry text => data_to_text entry = Ok text) sample_data sample_texts /\
  length sample_texts = length sample_data /\
  exists embeddings,
    sample_encode tt sample_texts = Ok embeddings /\
    sample_build_index embeddings = Ok sample_texts.
Proof.
  assert (Hs : create_vector_store sample_load_model sample_encode sample_build_index
                 sample_data = Ok (tt, sample_texts, sample_texts))
    by (vm_compute; reflexivity).
  split; [exact Hs|].
  exact (create_vector_store_positions sample_load_model sample_encode
           sample_build_index sample_data tt sample_texts sample_texts Hs).
Defined.

Lemma create_vector_store_missing_key_witness :
  (sample_load_model = Ok tt /\
   exists entry, In entry (sample_data ++ [delete "year" (record_dict sample_record)]) /\
                 is_ok (data_to_text entry) = false) /\
  exists key,
    In key REQUIRED_KEYS /\
    create_vector_store sample_load_model sample_encode sample_build_index
      (sample_data ++ [delete "year" (record_dict sample_record)])
    = Raise (KeyError key).
Proof.
  assert (Hbad : exists entry,
             In entry (sample_data ++ [delete "year" (record_dict sample_record)]) /\
             is_ok (data_to_text entry) = false).
  { exists (delete "year" (record_dict sample_record)).
    split; [simpl; tauto | vm_compute; reflexivity]. }
  split; [split; [reflexivity | exact Hbad]|].
  exact (create_vector_store_missing_key sample_load_model sample_encode
           sample_build_index _ tt eq_refl Hbad).
Defined.

(** *** More on the retriever *)

Section RetrieverMore.

Context {E D : Type} `{Distance D}.

Lemma select_docs_length (texts : list string) (t : D) (candidates : list (Z * D))
    (docs : list string) :
  select_docs texts t candidates = Ok docs -> length docs <= length candidates.
Proof.
  revert docs. induction candidates as [|[i d] rest IH]; intros docs; cbn [select_docs].
  - intros [= <-]. reflexivity.
  - destruct (dlt d t).
    + destruct (py_list_getitem texts i) as [doc|e]; [|discriminate]. cbn.
      destruct (select_docs texts t rest) as [ds|e]; [|discriminate]. cbn.
      intros [= <-]. specialize (IH _ eq_refl). simpl. lia.
    + intros Hs. specialize (IH _ Hs). simpl. lia.
Qed.

(** X6. The k-bound. What the retriever returns is no longer than the answer of
    the index: at most [k] documents when the index gives at most [k]
    candidates. *)
Theorem retrieve_at_most_candidates (query : string) (model : string -> result E)
    (faiss_index : E -> Z -> result (list D * list Z)) (texts : list string)
    (k : Z) (t : D) (e : E) (distances : list D) (indices : list Z)
    (docs : list string) :
  model query = Ok e ->
  faiss_index e k = Ok (distances, indices) ->
  retrieve_documents query model faiss_index texts k t = Ok docs ->
  length docs <= length indices /\ length docs <= length distances /\
  (Z.of_nat (length indices) <= k -> Z.of_nat (length docs) <= k)%Z.
Proof.
  intros Hm Hs. rewrite (retrieve_documents_unfold _ _ _ _ _ _ _ _ _ Hm Hs).
  intros Hsel. apply select_docs_length in Hsel.
  rewrite length_zip in Hsel. lia.
Qed.

Lemma py_list_getitem_out_of_range (texts : list string) (i : Z) :
  ~ in_index_range texts i -> py_list_getitem texts i = Raise IndexError.
Proof.
  unfold in_index_range, py_list_getitem. intros Hout.
  destruct (Z.ltb_spec i 0).
  - destruct (Z.leb_spec 0 (i + Z.of_nat (length texts))); [lia | reflexivity].
  - destruct (Z.leb_spec 0 i); [|lia].
    destruct (Z.ltb_spec i (Z.of_nat (length texts))); [lia | reflexivity].
Qed.

Lemma py_list_getitem_raise (texts : list string) (i : Z) (e : exn) :
  py_list_getitem texts i = Raise e -> e = IndexError.
Proof.
  unfold py_list_getitem.
  destruct (_ && _)%bool; [|now intros [= <-]].
  destruct (texts !! _); [discriminate | now intros [= <-]].
Qed.

Lemma select_docs_raise (texts : list string) (t : D) (candidates : list (Z * D))
    (e : exn) :
  select_docs texts t candidates = Raise e -> e = IndexError.
Proof.
  induction candidates as [|[i d] rest IH]; cbn [select_docs]; [discriminate|].
  destruct (dlt d t); [|exact IH].
  destruct (py_list_getitem texts i) as [doc|e'] eqn:Hg; cbn.
  - destruct (select_docs texts t rest) as [ds|e']; cbn; [discriminate|].
    intros [= <-]. now apply IH.
  - intros [= <-]. now apply py_list_getitem_raise in Hg.
Qed.

(** X7. A candidate below the threshold whose position is outside the range of
    [texts] makes the whole retrieval raise [IndexError]: no partial list is
    returned. *)
Theorem retrieve_out_of_range_raises (query : string) (model : string -> result E)
    (faiss_index : E -> Z -> result (list D * list Z)) (texts : list string)
    (k : Z) (t : D) (e : E) (distances : list D) (indices : list Z) :
  model query = Ok e ->
  faiss_index e k = Ok (distances, indices) ->
  (exists c, In c (zip indices distances) /\ dlt (snd c) t = true /\
             ~ in_index_range texts (fst c)) ->
  retrieve_documents query model faiss_index texts k t = Raise IndexError.
Proof.
  intros Hm Hs Hbad. rewrite (retrieve_documents_unfold _ _ _ _ _ _ _ _ _ Hm Hs).
  destruct (select_docs texts t (zip indices distances)) as [docs|e'] eqn:Hsel.
  - exfalso. destruct Hbad as (c & Hin & Hd & Hout). clear Hm Hs.
    revert docs Hsel. induction (zip indices distances) as [|[i d] rest IH];
      intros docs Hsel; [destruct Hin|]. cbn [select_docs] in Hsel.
    destruct Hin as [<-|Hin].
    + cbn in Hd, Hout. rewrite Hd, (py_list_getitem_out_of_range _ _ Hout) in Hsel.
      discriminate.
    + destruct (dlt d t); [|now apply (IH Hin docs)].
      destruct (py_list_getitem texts i); [|discriminate]. cbn in Hsel.
      destruct (select_docs texts t rest) as [ds|]; [|discriminate].
      now apply (IH Hin ds).
  - now rewrite (select_docs_raise _ _ _ _ Hsel).
Qed.

Lemma py_list_getitem_read (texts : list string) (i : Z) (doc : string) :
  py_list_getitem texts i = Ok doc -> texts !! read_position texts i = Some doc.
Proof.
  unfold py_list_getitem, read_position.
  destruct (_ && _)%bool; [|discriminate].
  destruct (texts !! _) as [x|]; [now intros [= <-] | discriminate].
Qed.

(** X8. Which text a position reads. A candidate below the threshold with a
    position [i >= 0] reads [texts[i]]; with a negative position within
    range it reads [texts[len(texts) + i]], so position -1 reads the last
    text. The retriever does not tell the two apart. *)
Theorem retrieve_negative_position (query : string) (model : string -> result E)
    (faiss_index : E -> Z -> result (list D * list Z)) (texts : list string)
    (k : Z) (t : D) (e : E) (distances : list D) (indices : list Z) :
  model query = Ok e ->
  faiss_index e k = Ok (distances, indices) ->
  Forall (fun c => in_index_range texts (fst c))
         (below_threshold t (zip indices distances)) ->
  exists docs,
    retrieve_documents query model faiss_index texts k t = Ok docs /\
    Forall2 (fun c doc => texts !! read_position texts (fst c) = Some doc)
            (below_threshold t (zip indices distances)) docs /\
    (texts <> [] -> read_position texts (-1) = length texts - 1).
Proof.
  intros Hm Hs Hr. rewrite (retrieve_documents_unfold _ _ _ _ _ _ _ _ _ Hm Hs).
  destruct (select_docs_below _ _ _ Hr) as (docs & Hsel & Hall).
  exists docs. split; [assumption|]. split.
  - eapply Forall2_impl; [exact Hall|].
    intros c doc Hc. now apply py_list_getitem_read in Hc.
  - intros Hne. unfold read_position. destruct texts; [congruence|]. cbn [length].
    change (-1 <? 0)%Z with true. cbv iota. lia.
Qed.

End RetrieverMore.

Lemma retrieve_at_most_candidates_witness :
  retrieve_documents "Ariyalur rainfall" sample_model sample_index sample_texts 3 1%Q
    = Ok (rev sample_texts) /\
  length (rev sample_texts) <= 3 /\ length (rev sample_texts) <= 3 /\
  (Z.of_nat 3 <= 3 -> Z.of_nat (length (rev sample_texts)) <= 3)%Z.
Proof.
  split; [reflexivity|].
  exact (retrieve_at_most_candidates "Ariyalur rainfall" sample_model sample_index
           sample_texts 3 1%Q "Ariyalur rainfall" _ _ (rev sample_texts)
           eq_refl eq_refl eq_refl).
Defined.

Lemma retrieve_out_of_range_raises_witness :
  (exists c, In c (zip [0%Z; 5%Z] [(1 # 5)%Q; (3 # 10)%Q]) /\ dlt (snd c) 1%Q = true /\
             ~ in_index_range sample_texts (fst c)) /\
  retrieve_documents "Ariyalur rainfall" sample_model sample_index_stale sample_texts 3 1%Q
    = Raise IndexError.
Proof.
  assert (Hbad : exists c, In c (zip [0%Z; 5%Z] [(1 # 5)%Q; (3 # 10)%Q]) /\
                           dlt (snd c) 1%Q = true /\
                           ~ in_index_range sample_texts (fst c)).
  { exists (5%Z, (3 # 10)%Q). split; [simpl; tauto|]. split; [reflexivity|].
    unfold in_index_range. simpl. lia. }
  split; [exact Hbad|].
  exact (retrieve_out_of_range_raises "Ariyalur rainfall" sample_model sample_index_stale
           sample_texts 3 1%Q "Ariyalur rainfall" _ _ eq_refl eq_refl Hbad).
Defined.

Lemma retrieve_negative_position_witness :
  Forall (fun c => in_index_range sample_texts (fst c))
    (below_threshold (FLT_MAX + 1)%Q
       (zip [1%Z; 0%Z; (-1)%Z] [(1 # 5)%Q; (7 # 10)%Q; FLT_MAX])) /\
  exists docs,
    retrieve_documents "Ariyalur rainfall" sample_model sample_index sample_texts 3
      (FLT_MAX + 1)%Q = Ok docs /\
    Forall2 (fun c doc => sample_texts !! read_position sample_texts (fst c) = Some doc)
      (below_threshold (FLT_MAX + 1)%Q
         (zip [1%Z; 0%Z; (-1)%Z] [(1 # 5)%Q; (7 # 10)%Q; FLT_MAX])) docs /\
    (sample_texts <> [] -> read_position sample_texts (-1) = length sample_texts - 1).
Proof.
  assert (Hr : Forall (fun c => in_index_range sample_texts (fst c))
    (below_threshold (FLT_MAX + 1)%Q
       (zip [1%Z; 0%Z; (-1)%Z] [(1 # 5)%Q; (7 # 10)%Q; FLT_MAX]))).
  { repeat (apply Forall_cons_2; [unfold in_index_range; simpl; lia|]).
    apply Forall_nil_2. }
  split; [exact Hr|].
  exact (retrieve_negative_position "Ariyalur rainfall" sample_model sample_index
           sample_texts 3 (FLT_MAX + 1)%Q "Ariyalur rainfall" _ _ eq_refl eq_refl Hr).
Defined.

(** *** More on the parser *)

Section ParserMore.

Lemma py_in_unfold (needle hay : string) :
  py_in needle hay =
  String.prefix needle hay ||
  match hay with
  | "" => false
  | String _ hay' => py_in needle hay'
  end.
Proof. destruct hay; reflexivity. Qed.

(** [find_sep] finds a separator exactly when there is one. *)
Lemma find_sep_None (sep s : string) : find_sep sep s = None <-> py_in sep s = false.
Proof.
  induction s as [|c s IH]; rewrite find_sep_unfold, py_in_unfold;
    destruct (String.prefix sep _); cbn; try (split; [discriminate | discriminate]).
  - tauto.
  - destruct (find_sep sep s) as [[b a]|].
    + split; [discriminate|]. intros Hin. apply IH in Hin. discriminate.
    + split; [intros _; now apply IH | reflexivity].
Qed.

Lemma parse_part_ok (part : string) :
  is_ok (parse_part part) = py_in ": " part.
Proof.
  unfold parse_part. cbn [py_split_max].
  destruct (find_sep ": " part) as [[b a]|] eqn:Hf.
  - destruct (py_in ": " part) eqn:Hin; [reflexivity|].
    apply find_sep_None in Hin. congruence.
  - apply find_sep_None in Hf. now rewrite Hf.
Qed.

Lemma parse_part_raise (part : string) (e : exn) :
  parse_part part = Raise e ->
  e = ValueError "not enough values to unpack (expected 2, got 1)".
Proof.
  unfold parse_part. cbn [py_split_max].
  destruct (find_sep ": " part) as [[b a]|]; [discriminate | now intros [= <-]].
Qed.

Lemma parse_parts_ok (parts : list string) (fields : gmap string string) :
  is_ok (parse_parts parts fields) = forallb (py_in ": ") parts.
Proof.
  revert fields. induction parts as [|part parts IH]; intros fields; [reflexivity|].
  cbn [parse_parts forallb]. rewrite <- parse_part_ok.
  destruct (parse_part part) as [[key value]|e]; cbn; [apply IH | reflexivity].
Qed.

Lemma parse_parts_raise (parts : list string) (fields : gmap string string) (e : exn) :
  parse_parts parts fields = Raise e ->
  e = ValueError "not enough values to unpack (expected 2, got 1)".
Proof.
  revert fields. induction parts as [|part parts IH]; intros fields;
    cbn [parse_parts]; [discriminate|].
  destruct (parse_part part) as [[key value]|e'] eqn:Hp; cbn.
  - apply IH.
  - intros [= <-]. now apply parse_part_raise in Hp.
Qed.

(** X9. A document parses exactly when each of its parts between [", "] holds a
    [": "]; otherwise the unpacking raises [ValueError], as it does for the
    empty document. *)
Theorem parse_doc_ok_iff (doc : string) :
  (is_ok (parse_doc doc) = true <->
   Forall (fun part => py_in ": " part = true) (py_split ", " doc)) /\
  (forall e, parse_doc doc = Raise e ->
     e = ValueError "not enough values to unpack (expected 2, got 1)") /\
  is_ok (parse_doc "") = false.
Proof.
  unfold parse_doc. split; [|split; [apply parse_parts_raise | reflexivity]].
  rewrite parse_parts_ok, forallb_forall, Forall_forall.
  split; intros Hall part Hin; apply Hall; now apply list_elem_of_In.
Qed.

Lemma parse_parts_app (parts1 parts2 : list string) (fields : gmap string string) :
  parse_parts (parts1 ++ parts2) fields
  = parse_parts parts1 fields ≫= parse_parts parts2.
Proof.
  revert fields. induction parts1 as [|part parts1 IH]; intros fields; [reflexivity|].
  cbn [app parse_parts].
  destruct (parse_part part) as [[key value]|e]; cbn; [apply IH | reflexivity].
Qed.

Lemma prefix_long (sep v t : string) :
  String.length sep <= String.length v ->
  String.prefix sep (v +:+ t) = String.prefix sep v.
Proof.
  revert v. induction sep as [|c sep IH]; intros v Hlen.
  - destruct v; [now destruct t | reflexivity].
  - destruct v as [|d v]; [simpl in Hlen; lia|].
    rewrite append_cons. simpl. destruct (Ascii.ascii_dec c d); [|reflexivity].
    apply IH. simpl in Hlen. lia.
Qed.

Lemma drop_chars_long (n : nat) (v t : string) :
  n <= String.length v -> drop_chars n (v +:+ t) = drop_chars n v +:+ t.
Proof.
  revert v. induction n as [|n IH]; intros v Hlen; [reflexivity|].
  destruct v as [|d v]; [simpl in Hlen; lia|].
  rewrite append_cons. simpl. apply IH. simpl in Hlen. lia.
Qed.

Lemma prefix_length (sep s : string) :
  String.prefix sep s = true -> String.length sep <= String.length s.
Proof.
  intros Hp. apply prefix_split in Hp. rewrite Hp, length_append. lia.
Qed.

(** The leftmost separator of a text stays the leftmost when the text is
    extended. *)
Lemma find_sep_extend (sep a t x y : string) :
  find_sep sep a = Some (x, y) -> find_sep sep (a +:+ t) = Some (x, y +:+ t).
Proof.
  revert x. induction a as [|c a IH]; intros x Hf.
  - rewrite find_sep_unfold in Hf.
    destruct (String.prefix sep "") eqn:Hp; [|discriminate].
    injection Hf as <- <-. destruct sep; [|discriminate].
    rewrite append_nil_l. rewrite find_sep_unfold.
    assert (Hp' : String.prefix "" t = true) by now destruct t.
    now rewrite Hp'.
  - pose proof (find_sep_Some _ _ _ _ Hf) as Ha.
    assert (Hlen : String.length sep <= String.length (String c a)).
    { rewrite Ha, !length_append. lia. }
    rewrite find_sep_unfold in Hf. rewrite find_sep_unfold, prefix_long by assumption.
    destruct (String.prefix sep (String c a)) eqn:Hp.
    + injection Hf as <- <-. now rewrite drop_chars_long.
    + rewrite append_cons.
      destruct (find_sep sep a) as [[x' y']|] eqn:Hf'; [|discriminate].
      injection Hf as <- <-. now rewrite (IH _ eq_refl).
Qed.

Lemma comma_sep_nonempty : ", " <> "".
Proof. discriminate. Qed.

(** Against the field separator a text and what follows it are cut apart:
    no cut of [", "] can straddle the place where two texts are joined by
    it. *)
Lemma py_split_join_comma (a b : string) :
  py_split ", " (a +:+ ", " +:+ b) = py_split ", " a ++ py_split ", " b.
Proof.
  remember (String.length a) as n eqn:Hn. revert a Hn.
  induction n as [n IH] using lt_wf_ind. intros a Hn.
  destruct (find_sep ", " a) as [[x y]|] eqn:Hf.
  - pose proof (find_sep_shorter _ _ _ _ comma_sep_nonempty Hf) as Hlt.
    rewrite (py_split_cut _ _ _ _ comma_sep_nonempty Hf).
    rewrite (py_split_cut _ _ _ _ comma_sep_nonempty (find_sep_extend _ _ _ _ _ Hf)).
    cbn [app]. f_equal. apply (IH (String.length y)); [lia | reflexivity].
  - rewrite (py_split_whole _ _ Hf). cbn [app].
    apply py_split_cut; [discriminate|].
    rewrite (clean_before_find ", " a (", " +:+ b)), find_sep_here.
    + now rewrite append_empty_r.
    + apply clean_before_two; [now apply find_sep_None | apply andb_false_r].
Qed.

(** X10. Appending a field to a text that parses files its value under its key,
    in place of any value an earlier field had put there: of two fields with
    the same key the later one wins, and no error is raised for it. *)
Theorem parse_doc_append_field (doc part key value : string)
    (fields : gmap string string) :
  parse_doc doc = Ok fields ->
  py_in ", " part = false ->
  parse_part part = Ok (key, value) ->
  parse_doc (doc +:+ ", " +:+ part) = Ok (<[field_key key := value]> fields) /\
  (<[field_key key := value]> fields) !! field_key key = Some value.
Proof.
  intros Hdoc Hpart Hkv. split; [|apply lookup_insert_eq].
  unfold parse_doc in *. rewrite py_split_join_comma, parse_parts_app, Hdoc. cbn.
  rewrite (py_split_whole ", " part) by now apply find_sep_None.
  cbn [parse_parts]. rewrite Hkv. reflexivity.
Qed.

End ParserMore.

Lemma parse_doc_append_field_witness :
  (parse_doc "District: Ariyalur, Year: 2020" =
     Ok (<["year" := "2020"]> (<["district" := "Ariyalur"]> ∅)) /\
   py_in ", " "YEAR: 2030" = false /\
   parse_part "YEAR: 2030" = Ok ("YEAR", "2030")) /\
  parse_doc "District: Ariyalur, Year: 2020, YEAR: 2030"
  = Ok (<["year" := "2030"]> (<["year" := "2020"]> (<["district" := "Ariyalur"]> ∅))) /\
  (<["year" := "2030"]> (<["year" := "2020"]> (<["district" := "Ariyalur"]> ∅))
     : gmap string string) !! "year" = Some "2030".
Proof.
  split; [repeat split|].
  exact (parse_doc_append_field "District: Ariyalur, Year: 2020" "YEAR: 2030"
           "YEAR" "2030" _ eq_refl eq_refl eq_refl).
Defined.

(** *** The composer on the texts of Records *)

Section ComposerRecords.

Context {F R : Type} `{PyFloatLaws F}.

Lemma all_chars_impl (p q : ascii -> bool) (s : string) :
  (forall c, p c = true -> q c = true) -> all_chars p s = true -> all_chars q s = true.
Proof.
  intros Hpq. induction s as [|c s IH]; [reflexivity|]. cbn [all_chars].
  intros [Hc Hs]%andb_prop. now rewrite (Hpq c Hc), IH.
Qed.

(** A separator cannot start inside a text that lacks its first character. *)
Lemma clean_before_first_char (c : ascii) (sep v t : string) :
  all_chars (fun d => negb (Ascii.eqb c d)) v = true ->
  clean_before (String c sep) v t = true.
Proof.
  induction v as [|d v IH]; [reflexivity|]. cbn [all_chars clean_before].
  intros [Hd Hv]%andb_prop. rewrite (IH Hv), andb_true_r.
  apply negb_true_iff. rewrite append_cons. simpl.
  destruct (Ascii.ascii_dec c d) as [->|]; [|reflexivity].
  now rewrite Ascii.eqb_refl in Hd.
Qed.

Lemma float_text_no_space (s : string) :
  all_chars float_repr_char s = true ->
  all_chars (fun d => negb (Ascii.eqb " " d)) s = true.
Proof.
  apply all_chars_impl. intros c Hc.
  destruct (Ascii.eqb_spec " " c) as [<-|]; [discriminate Hc | reflexivity].
Qed.

(** Taking the unit off a rainfall cell gives back the text of the float. *)
Lemma py_replace_unit (v : string) :
  all_chars float_repr_char v = true -> py_replace " mm" "" (v +:+ " mm") = v.
Proof.
  intros Hv. unfold py_replace.
  assert (Hf : find_sep " mm" (v +:+ " mm") = Some (v, "")).
  { change (v +:+ " mm") with (v +:+ " mm" +:+ "").
    rewrite clean_before_find, find_sep_here; [now rewrite append_empty_r|].
    now apply clean_before_first_char, float_text_no_space. }
  assert (Hne : " mm" <> "") by discriminate.
  rewrite (py_split_cut _ _ _ _ Hne Hf).
  cbn. now rewrite !append_empty_r.
Qed.

Lemma render_row_record (r : district_record F) :
  render_row (record_fields r) = Ok (record_row r).
Proof.
  unfold render_row, py_getitem, record_fields, canonical_fields.
  lookup_inserts. reflexivity.
Qed.

Lemma chart_entry_record (r : district_record F) :
  chart_entry (record_fields r) = Ok (record_item r).
Proof.
  unfold chart_entry, py_getitem, record_fields, canonical_fields.
  lookup_inserts. cbn.
  rewrite py_replace_unit by apply float_str_alphabet.
  now rewrite float_of_str_str.
Qed.

Lemma parse_docs_records (b : bool) (rs : list (district_record F))
    (rows0 : list (gmap string string)) (items0 : list (chart_item F)) :
  Forall (fun r => comma_free r = true) rs ->
  parse_docs b (map record_text rs) rows0 items0
  = Ok (rows0 ++ map record_fields rs,
        items0 ++ (if b then map record_item rs else [])).
Proof.
  revert rows0 items0. induction rs as [|r rs IH]; intros rows0 items0 Hfree.
  - destruct b; cbn; now rewrite !app_nil_r.
  - apply Forall_cons_1 in Hfree as [Hr Hfree]. cbn [map parse_docs].
    rewrite (parse_record_text r Hr). cbn. fold (record_fields r). destruct b.
    + rewrite chart_entry_record. cbn. rewrite (IH _ _ Hfree).
      now rewrite <- !app_assoc.
    + rewrite (IH _ _ Hfree). now rewrite <- !app_assoc.
Qed.

Lemma render_rows_records (rs : list (district_record F)) (done0 : list table_row) :
  render_rows (map record_fields rs) done0 = Ok (done0 ++ map record_row rs).
Proof.
  revert done0. induction rs as [|r rs IH]; intros done0; cbn [map render_rows].
  - now rewrite app_nil_r.
  - rewrite render_row_record. cbn. rewrite IH. now rewrite <- app_assoc.
Qed.

(** The general path of the composer, in one piece. *)
Lemma generate_response_general (query : string) (docs : list string) (data : list R) :
  is_special query = false -> docs <> [] ->
  generate_response (F:=F) query docs data
  = ('(table_rows, chart_data) ← parse_docs (py_in "ariyalur" (normalize query)) docs [] [];
     rows ← render_rows table_rows [];
     Ok (TableReply query rows
           (if py_in "ariyalur" (normalize query) && negb (bool_decide (chart_data = []))
            then Some {| labels := map label chart_data;
                         dataset := map rainfall chart_data |}
            else None))).
Proof.
  unfold is_special, generate_response. intros [Hg Hi]%orb_false_elim Hne.
  rewrite Hg, Hi. destruct docs; [congruence | reflexivity].
Qed.

(** The response to the texts of Records, on the general path. *)
Lemma compose_records (query : string) (rs : list (district_record F)) (data : list R) :
  is_special query = false -> rs <> [] ->
  Forall (fun r => comma_free r = true) rs ->
  generate_response query (map record_text rs) data
  = Ok (TableReply query (map record_row rs)
          (records_chart (py_in "ariyalur" (normalize query)) rs)).
Proof.
  intros Hs Hne Hfree.
  rewrite generate_response_general; [|assumption | now destruct rs].
  rewrite (parse_docs_records _ rs [] [] Hfree). cbn [app mbind result_bind].
  rewrite render_rows_records. cbn [app mbind result_bind].
  unfold records_chart. destruct (py_in "ariyalur" (normalize query)); [|reflexivity].
  destruct rs as [|r rs]; [congruence|]. cbn [andb map].
  rewrite bool_decide_eq_false_2 by discriminate. cbn [negb].
  rewrite !map_map. reflexivity.
Qed.

(** X11. What the user sees is what the dataset holds. For retrieved documents
    that are the texts of Records (no rendered value holding [", "]) and a
    query that takes no fixed reply, the table has one row per Record, in
    order, with the Record's district, year, scenario and population and its
    rainfall and groundwater level followed by their units; the chart, when
    the query has the district token, plots the Records' rainfall as the
    floats they are, under the labels [year (scenario)]. *)
Theorem generate_response_on_records (query : string) (rs : list (district_record F))
    (data : list R) :
  is_special query = false -> rs <> [] ->
  Forall (fun r => comma_free r = true) rs ->
  exists rows chart,
    generate_response query (map record_text rs) data = Ok (TableReply query rows chart) /\
    rows = map record_row rs /\
    (py_in "ariyalur" (normalize query) = true ->
     chart = Some {| labels := map record_label rs;
                     dataset := map avg_annual_rainfall_mm rs |}) /\
    (py_in "ariyalur" (normalize query) = false -> chart = None).
Proof.
  intros Hs Hne Hfree. eexists; eexists. split; [now apply compose_records|].
  split; [reflexivity|]. unfold records_chart.
  split; intros ->; reflexivity.
Qed.

Lemma doc_composes_keys (b : bool) (doc : string) :
  parses_to_key_set doc = true ->
  doc_composes F b doc = if b then rainfall_is_number F doc else true.
Proof.
  unfold parses_to_key_set, doc_composes, rainfall_is_number.
  destruct (parse_doc doc) as [fields|e]; [|discriminate].
  intros Hk. rewrite render_row_keys, Hk. cbn [andb].
  destruct b; [|reflexivity].
  cbn [forallb EXPECTED_KEYS] in Hk.
  apply andb_prop in Hk as [_ Hk].
  apply andb_prop in Hk as [Hy%bool_decide_eq_true_1 Hk].
  apply andb_prop in Hk as [Hsc%bool_decide_eq_true_1 Hk].
  apply andb_prop in Hk as [Hrf%bool_decide_eq_true_1 _].
  destruct Hy as [y Hy], Hsc as [sc Hsc], Hrf as [rf Hrf].
  unfold chart_entry, py_getitem. rewrite Hy, Hsc, Hrf. cbn.
  now destruct (float_of_str (py_replace " mm" "" rf)).
Qed.

(** X12. The district token decides whether the rainfall must be a number. For
    documents that all have the six keys and a query that takes no fixed
    reply: without the token a response is always produced; with it, a
    response is produced exactly when every rainfall cell, its unit taken
    off, reads as a float. The same documents can thus be answered for one
    query and raise for another. *)
Theorem compose_token_decides (query : string) (docs : list string) (data : list R) :
  is_special query = false -> docs <> [] ->
  Forall (fun doc => parses_to_key_set doc = true) docs ->
  (py_in "ariyalur" (normalize query) = false ->
   exists r, generate_response (F:=F) query docs data = Ok r) /\
  (py_in "ariyalur" (normalize query) = true ->
   ((exists r, generate_response (F:=F) query docs data = Ok r) <->
    Forall (fun doc => rainfall_is_number F doc = true) docs)).
Proof.
  intros Hs Hne Hkeys.
  assert (Hiff : (exists r, generate_response (F:=F) query docs data = Ok r) <->
                 Forall (fun doc => doc_composes F (py_in "ariyalur" (normalize query)) doc
                                    = true) docs).
  { split.
    - intros (r & Hr). exact (compose_ok_composes _ _ _ _ Hs Hr).
    - intros Hall. destruct (compose_total query docs data Hne Hall) as (r & Hr & _).
      now exists r. }
  split; intros Hb; rewrite Hb in Hiff.
  - apply Hiff. eapply Forall_impl; [exact Hkeys|].
    intros doc Hdoc. now rewrite doc_composes_keys.
  - rewrite Hiff. split; intros Hall; rewrite Forall_forall in *; intros doc Hin.
    + rewrite <- (doc_composes_keys true) by now apply Hkeys. now apply Hall.
    + rewrite (doc_composes_keys true) by now apply Hkeys. now apply Hall.
Qed.

End ComposerRecords.

Lemma generate_response_on_records_witness :
  (is_special "Ariyalur rainfall in 2020" = false /\
   [sample_record; sample_record_dry] <> [] /\
   Forall (fun r => comma_free r = true) [sample_record; sample_record_dry]) /\
  exists rows chart,
    generate_response "Ariyalur rainfall in 2020"
      (map record_text [sample_record; sample_record_dry]) ([] : list unit)
    = Ok (TableReply "Ariyalur rainfall in 2020" rows chart) /\
    rows = map record_row [sample_record; sample_record_dry] /\
    (py_in "ariyalur" (normalize "Ariyalur rainfall in 2020") = true ->
     chart = Some {| labels := map record_label [sample_record; sample_record_dry];
                     dataset := map avg_annual_rainfall_mm
                                  [sample_record; sample_record_dry] |}) /\
    (py_in "ariyalur" (normalize "Ariyalur rainfall in 2020") = false -> chart = None).
Proof.
  assert (Hfree : Forall (fun r => comma_free r = true) [sample_record; sample_record_dry]).
  { repeat (apply Forall_cons_2; [reflexivity|]). apply Forall_nil_2. }
  split; [split; [reflexivity | split; [discriminate | exact Hfree]]|].
  apply (generate_response_on_records (R:=unit) "Ariyalur rainfall in 2020"
           [sample_record; sample_record_dry] []);
    [reflexivity | discriminate | exact Hfree].
Defined.

Lemma compose_token_decides_witness :
  (is_special "Ariyalur rainfall" = false /\
   sample_texts_no_number <> [] /\
   Forall (fun doc => parses_to_key_set doc = true) sample_texts_no_number) /\
  (py_in "ariyalur" (normalize "Ariyalur rainfall") = false ->
   exists r, generate_response (F:=sample_float) "Ariyalur rainfall"
               sample_texts_no_number ([] : list unit) = Ok r) /\
  (py_in "ariyalur" (normalize "Ariyalur rainfall") = true ->
   ((exists r, generate_response (F:=sample_float) "Ariyalur rainfall"
                 sample_texts_no_number ([] : list unit) = Ok r) <->
    Forall (fun doc => rainfall_is_number sample_float doc = true)
           sample_texts_no_number)).
Proof.
  assert (Hkeys : Forall (fun doc => parses_to_key_set doc = true) sample_texts_no_number).
  { repeat (apply Forall_cons_2; [reflexivity|]). apply Forall_nil_2. }
  split; [split; [reflexivity | split; [discriminate | exact Hkeys]]|].
  apply (compose_token_decides (F:=sample_float) (R:=unit) "Ariyalur rainfall"
           sample_texts_no_number []);
    [reflexivity | discriminate | exact Hkeys].
Defined.

(** The documents without a number: answered for a query without the
    district token, an error for one with it. *)
Example token_turns_answer_into_error :
  is_ok (generate_response (F:=sample_float) "rainfall everywhere"
           sample_texts_no_number ([] : list unit)) = true /\
  generate_response (F:=sample_float) "Ariyalur rainfall"
    sample_texts_no_number ([] : list unit)
  = Raise (ValueError "could not convert string to float").
Proof. split; vm_compute; reflexivity. Qed.

(** *** More on the [/chat] handler *)

Section ChatMore.

Context {E F D : Type} `{PyFloat F} `{Distance D}.

(** X13. The three outcomes of a request. The status is 200, 400 or 500: 200
    carries a composed response, and then the handler has scanned the query,
    called the retriever with the query as typed, 3 and 1.0, and called the
    composer with the same query and the documents the retriever returned;
    400 carries one of the two fixed messages and neither call; 500 carries
    the exception that was raised. *)
Theorem chat_outcomes (ctx : chat_context F E D) (request_json : gmap string jvalue) :
  (status (chat ctx request_json) = 200%Z /\
   exists q docs r,
     request_json !! "query" = Some (JStr q) /\
     retrieve_documents q (ctx_model ctx) (ctx_faiss_index ctx) (ctx_texts ctx) 3 d_one
       = Ok docs /\
     generate_response q docs (ctx_data ctx) = Ok r /\
     reply (chat ctx request_json) = Composed r /\
     calls (chat ctx request_json)
       = [CheckKeywords (normalize q); CallRetriever q; CallComposer q docs]) \/
  (status (chat ctx request_json) = 400%Z /\
   (reply (chat ctx request_json) = Message "Please provide a query." /\
    calls (chat ctx request_json) = [] \/
    reply (chat ctx request_json) = Message "Wrong question you asked." /\
    exists q, calls (chat ctx request_json) = [CheckKeywords (normalize q)])) \/
  (status (chat ctx request_json) = 500%Z /\
   exists e, reply (chat ctx request_json) = Failure e).
Proof.
  unfold chat.
  destruct (request_json !! "query") as [v|] eqn:Hq; cbn [from_option id];
    [|right; left; cbn; tauto].
  destruct (py_truthy v) eqn:Hv; cbn [negb]; [|right; left; cbn; tauto].
  destruct v as [|b|z|nz|q|items|items];
    try (right; right; cbn; split; [reflexivity | eexists; reflexivity]).
  destruct (existsb _ FORBIDDEN_KEYWORDS).
  { right; left. cbn. split; [reflexivity|]. right. split; [reflexivity | now exists q]. }
  destruct (retrieve_documents q _ _ _ 3 d_one) as [docs|e] eqn:Hr;
    [|right; right; cbn; split; [reflexivity | now exists e]].
  destruct (generate_response q docs (ctx_data ctx)) as [r|e] eqn:Hg;
    [|right; right; cbn; split; [reflexivity | now exists e]].
  left. cbn. split; [reflexivity|]. now exists q, docs, r.
Qed.

(** On a body that is a JSON object the status is 400 exactly when the
    query is missing or falsy, or is a string whose normalized form contains
    a forbidden keyword. *)
Lemma chat_object_400_iff (ctx : chat_context F E D) (request_json : gmap string jvalue) :
  status (chat ctx request_json) = 400%Z <->
  py_truthy (default JNull (request_json !! "query")) = false \/
  exists q, request_json !! "query" = Some (JStr q) /\
            existsb (fun keyword => py_in keyword (normalize q)) FORBIDDEN_KEYWORDS = true.
Proof.
  unfold chat.
  destruct (request_json !! "query") as [v|] eqn:Hq; cbn [from_option id];
    [|cbn; tauto].
  destruct (py_truthy v) eqn:Hv; cbn [negb]; [|cbn; tauto].
  destruct v as [|b|z|nz|q|items|items];
    try (cbn; split; [discriminate | intros [Hf|(q' & [=] & _)]; discriminate]).
  destruct (existsb _ FORBIDDEN_KEYWORDS) eqn:Hkw.
  { cbn. split; [intros _; right; now exists q | reflexivity]. }
  destruct (retrieve_documents q _ _ _ 3 d_one) as [docs|e];
    [destruct (generate_response q docs (ctx_data ctx)) as [r|e]|];
    (cbn [status]; split; [discriminate | intros [Hf|(q' & [= <-] & Hk)]; congruence]).
Qed.

(** X14. The status is 400 exactly when the body of the request is a JSON
    object whose query is missing or falsy, or is a string whose normalized
    form contains a forbidden keyword: a query without one is never refused,
    and a request whose body is no JSON object never gets status 400. *)
Theorem chat_400_iff (ctx : chat_context F E D) (body : request_body) :
  status (chat_request ctx body) = 400%Z <->
  is_json_object body = true /\
  (py_truthy (default JNull (query_field body)) = false \/
   exists q, query_field body = Some (JStr q) /\
             existsb (fun keyword => py_in keyword (normalize q)) FORBIDDEN_KEYWORDS = true).
Proof.
  destruct body as [|[| | | | | |items]];
    try (cbn; split; [discriminate | intros [Hobj _]; discriminate Hobj]).
  cbn [chat_request is_json_object query_field]. rewrite chat_object_400_iff.
  split; [intros Hc; split; [reflexivity | exact Hc] | intros [_ Hc]; exact Hc].
Qed.

(** X15. A truthy query that is not a string (a number, [true], a non-empty list
    or object) is answered with status 500, for want of a [lower] method,
    and nothing is scanned, retrieved or composed. *)
Theorem chat_query_not_a_string (ctx : chat_context F E D)
    (request_json : gmap string jvalue) (v : jvalue) :
  request_json !! "query" = Some v ->
  py_truthy v = true ->
  (forall q, v <> JStr q) ->
  chat ctx request_json
  = {| reply := Failure (AttributeError "object has no attribute 'lower'");
       status := 500; calls := [] |}.
Proof.
  intros Hq Hv Hns. unfold chat. rewrite Hq. cbn [from_option id]. rewrite Hv.
  cbn [negb]. destruct v; try reflexivity. now destruct (Hns s).
Qed.

Lemma py_lower_space (c : ascii) : py_isspace c = true -> py_lower_char c = c.
Proof.
  destruct c as [[] [] [] [] [] [] [] []]; intros Hc; try reflexivity; discriminate Hc.
Qed.

Lemma normalize_blank (s : string) : all_chars py_isspace s = true -> normalize s = "".
Proof.
  unfold normalize, py_strip. intros Hs.
  assert (Hl : py_lstrip (py_lower s) = "").
  { induction s as [|c s IH]; [reflexivity|]. cbn [all_chars] in Hs.
    apply andb_prop in Hs as [Hc Hs]. cbn [py_lower py_lstrip].
    rewrite (py_lower_space c Hc), Hc. now apply IH. }
  now rewrite Hl.
Qed.

(** X16. A query of white space only is not an empty query. It is not answered
    with [Please provide a query.]: it is scanned (its normalized form is
    empty and holds no keyword) and the retriever is called with the white
    space as typed. *)
Theorem chat_blank_query (ctx : chat_context F E D)
    (request_json : gmap string jvalue) (q : string) :
  request_json !! "query" = Some (JStr q) ->
  q <> "" ->
  all_chars py_isspace q = true ->
  status (chat ctx request_json) <> 400%Z /\
  exists rest, calls (chat ctx request_json) = CheckKeywords "" :: CallRetriever q :: rest.
Proof.
  intros Hq Hne Hs. unfold chat. rewrite Hq. cbn [from_option id py_truthy].
  apply String.eqb_neq in Hne. rewrite Hne. cbn [negb].
  rewrite (normalize_blank q Hs).
  change (existsb (fun keyword => py_in keyword "") FORBIDDEN_KEYWORDS) with false.
  cbv iota.
  destruct (retrieve_documents q _ _ _ 3 d_one) as [docs|e];
    [destruct (generate_response q docs (ctx_data ctx)) as [r|e]|];
    (cbn; split; [discriminate | eexists; reflexivity]).
Qed.

Lemma greeting_cases (s : string) :
  py_in_list s GREETINGS = true -> s = "hi" \/ s = "hello" \/ s = "hey".
Proof.
  unfold py_in_list, GREETINGS. cbn [existsb].
  destruct (String.eqb_spec s "hi"); [tauto|].
  destruct (String.eqb_spec s "hello"); [tauto|].
  destruct (String.eqb_spec s "hey"); [tauto | discriminate].
Qed.

(** X17. A greeting is answered only after retrieval. For a query whose
    normalized form is a greeting the handler still calls the retriever: if
    that raises, the answer is status 500 and no greeting; if it returns,
    the answer is the greeting with status 200, whatever was retrieved. *)
Theorem chat_greeting_after_retrieval (ctx : chat_context F E D)
    (request_json : gmap string jvalue) (q : string) :
  request_json !! "query" = Some (JStr q) ->
  py_in_list (normalize q) GREETINGS = true ->
  (forall e,
     retrieve_documents q (ctx_model ctx) (ctx_faiss_index ctx) (ctx_texts ctx) 3 d_one
       = Raise e ->
     chat ctx request_json
     = {| reply := Failure e; status := 500;
          calls := [CheckKeywords (normalize q); CallRetriever q] |}) /\
  (forall docs,
     retrieve_documents q (ctx_model ctx) (ctx_faiss_index ctx) (ctx_texts ctx) 3 d_one
       = Ok docs ->
     chat ctx request_json
     = {| reply := Composed (Reply GREETING_REPLY); status := 200;
          calls := [CheckKeywords (normalize q); CallRetriever q; CallComposer q docs] |}).
Proof.
  intros Hq Hg.
  assert (Hne : String.eqb q "" = false).
  { destruct q; [discriminate Hg | reflexivity]. }
  assert (Hkw : existsb (fun keyword => py_in keyword (normalize q)) FORBIDDEN_KEYWORDS
                = false).
  { destruct (greeting_cases _ Hg) as [-> | [-> | ->]]; reflexivity. }
  unfold chat. rewrite Hq. cbn [from_option id py_truthy]. rewrite Hne, Hkw. cbn [negb].
  split.
  - intros e ->. reflexivity.
  - intros docs ->. unfold generate_response. now rewrite Hg.
Qed.

End ChatMore.

Lemma chat_query_not_a_string_witness :
  (({[ "query" := JInt 42 ]} : gmap string jvalue) !! "query" = Some (JInt 42) /\
   py_truthy (JInt 42) = true /\ (forall q, JInt 42 <> JStr q)) /\
  chat sample_context {[ "query" := JInt 42 ]}
  = {| reply := Failure (AttributeError "object has no attribute 'lower'");
       status := 500; calls := [] |}.
Proof.
  assert (Hns : forall q, JInt 42 <> JStr q) by discriminate.
  split; [split; [reflexivity | split; [reflexivity | exact Hns]]|].
  exact (chat_query_not_a_string sample_context {[ "query" := JInt 42 ]} (JInt 42)
           eq_refl eq_refl Hns).
Defined.

Lemma chat_blank_query_witness :
  (({[ "query" := JStr "   " ]} : gmap string jvalue) !! "query" = Some (JStr "   ") /\
   "   " <> "" /\ all_chars py_isspace "   " = true) /\
  status (chat sample_context {[ "query" := JStr "   " ]}) <> 400%Z /\
  exists rest, calls (chat sample_context {[ "query" := JStr "   " ]})
               = CheckKeywords "" :: CallRetriever "   " :: rest.
Proof.
  assert (Hne : "   " <> "") by discriminate.
  split; [split; [reflexivity | split; [exact Hne | reflexivity]]|].
  exact (chat_blank_query sample_context {[ "query" := JStr "   " ]} "   "
           eq_refl Hne eq_refl).
Defined.

Lemma chat_greeting_after_retrieval_witness :
  (({[ "query" := JStr " Hello " ]} : gmap string jvalue) !! "query" = Some (JStr " Hello ") /\
   py_in_list (normalize " Hello ") GREETINGS = true) /\
  (forall e,
     retrieve_documents " Hello " (ctx_model sample_context)
       (ctx_faiss_index sample_context) (ctx_texts sample_context) 3 d_one = Raise e ->
     chat sample_context {[ "query" := JStr " Hello " ]}
     = {| reply := Failure e; status := 500;
          calls := [CheckKeywords (normalize " Hello "); CallRetriever " Hello "] |}) /\
  (forall docs,
     retrieve_documents " Hello " (ctx_model sample_context)
       (ctx_faiss_index sample_context) (ctx_texts sample_context) 3 d_one = Ok docs ->
     chat sample_context {[ "query" := JStr " Hello " ]}
     = {| reply := Composed (Reply GREETING_REPLY); status := 200;
          calls := [CheckKeywords (normalize " Hello "); CallRetriever " Hello ";
                    CallComposer " Hello " docs] |}).
Proof.
  split; [split; reflexivity|].
  exact (chat_greeting_after_retrieval sample_context {[ "query" := JStr " Hello " ]}
           " Hello " eq_refl eq_refl).
Defined.

(** *** The whole path of a query *)

Section Pipeline.

Context {E F D : Type} `{PyFloatLaws F} `{Distance D}.

(** The documents read at positions of records, in a list of texts that are
    the texts of Records, are the texts of the Records at these positions. *)
Lemma docs_of_records (rs : list (district_record F)) (kept : list (Z * D))
    (docs : list string) :
  Forall (fun c => real_position (map record_text rs) (fst c)) kept ->
  Forall2 (fun c doc => py_list_getitem (map record_text rs) (fst c) = Ok doc) kept docs ->
  exists picked,
    Forall2 (fun c r => rs !! Z.to_nat (fst c) = Some r) kept picked /\
    docs = map record_text picked.
Proof.
  intros Hreal Hall. induction Hall as [|c doc kept docs Hc Hall IH].
  - exists []. split; [constructor | reflexivity].
  - apply Forall_cons_1 in Hreal as [Hr Hreal].
    destruct (IH Hreal) as (picked & Hp & ->).
    destruct (py_list_getitem_real _ _ Hr) as (doc' & Hg & Hl).
    rewrite Hc in Hg. injection Hg as <-.
    change (map record_text rs) with (record_text <$> rs) in Hl.
    rewrite list_lookup_fmap in Hl.
    destruct (rs !! Z.to_nat (fst c)) as [r|] eqn:Hrs; [|discriminate].
    cbn in Hl. injection Hl as <-.
    exists (r :: picked). split; [now constructor | reflexivity].
Qed.

(** X18. From the request to the table. With texts that are the texts of the
    Records of the dataset (no rendered value holding [", "]), a non-empty
    query string without forbidden keyword that takes no fixed reply, and an
    index whose entries below 1.0 name records, at least one of them: the
    answer has status 200 and its table shows, in the order of the index,
    the Records at the positions the index named; the chart, if the query
    has the district token, plots their rainfall. *)
Theorem chat_answers_with_records (ctx : chat_context F E D)
    (rs : list (district_record F)) (request_json : gmap string jvalue)
    (q : string) (e : E) (distances : list D) (indices : list Z) :
  ctx_texts ctx = map record_text rs ->
  Forall (fun r => comma_free r = true) rs ->
  request_json !! "query" = Some (JStr q) ->
  q <> "" ->
  existsb (fun keyword => py_in keyword (normalize q)) FORBIDDEN_KEYWORDS = false ->
  is_special q = false ->
  ctx_model ctx q = Ok e ->
  ctx_faiss_index ctx e 3 = Ok (distances, indices) ->
  Forall (fun c => real_position (ctx_texts ctx) (fst c))
         (below_threshold d_one (zip indices distances)) ->
  below_threshold d_one (zip indices distances) <> [] ->
  exists picked,
    Forall2 (fun c r => rs !! Z.to_nat (fst c) = Some r)
            (below_threshold d_one (zip indices distances)) picked /\
    status (chat ctx request_json) = 200%Z /\
    reply (chat ctx request_json)
    = Composed (TableReply q (map record_row picked)
                  (records_chart (py_in "ariyalur" (normalize q)) picked)).
Proof.
  intros Htexts Hfree Hq Hne Hkw Hs Hm Hi Hreal Hsome.
  assert (Hrange : Forall (fun c => in_index_range (ctx_texts ctx) (fst c))
                     (below_threshold d_one (zip indices distances))).
  { eapply Forall_impl; [exact Hreal|].
    intros c Hc. unfold real_position, in_index_range in *. lia. }
  destruct (select_docs_below _ _ _ Hrange) as (docs & Hsel & Hall).
  rewrite Htexts in Hreal, Hall.
  destruct (docs_of_records rs _ docs Hreal Hall) as (picked & Hpicked & ->).
  assert (Hret : retrieve_documents q (ctx_model ctx) (ctx_faiss_index ctx)
                   (ctx_texts ctx) 3 d_one = Ok (map record_text picked)).
  { now rewrite (retrieve_documents_unfold _ _ _ _ _ _ _ _ _ Hm Hi). }
  assert (Hpne : picked <> []).
  { intros ->. apply Forall2_length in Hpicked.
    destruct (below_threshold d_one (zip indices distances)); [congruence | discriminate]. }
  assert (Hpfree : Forall (fun r => comma_free r = true) picked).
  { clear -Hpicked Hfree. rewrite Forall_forall in Hfree.
    induction Hpicked as [|c r kept picked Hc Hp IH]; constructor; [|exact IH].
    apply Hfree. eapply list_elem_of_lookup_2. exact Hc. }
  exists picked. split; [exact Hpicked|].
  unfold chat. rewrite Hq. cbn [from_option id py_truthy].
  apply String.eqb_neq in Hne. rewrite Hne, Hkw. cbn [negb]. rewrite Hret.
  rewrite (compose_records q picked (ctx_data ctx) Hs Hpne Hpfree).
  split; reflexivity.
Qed.

End Pipeline.

Lemma chat_answers_with_records_witness :
  (ctx_texts sample_context = map record_text [sample_record; sample_record_dry] /\
   Forall (fun r => comma_free r = true) [sample_record; sample_record_dry] /\
   "Ariyalur rainfall in 2020" <> "" /\
   existsb (fun keyword => py_in keyword (normalize "Ariyalur rainfall in 2020"))
     FORBIDDEN_KEYWORDS = false /\
   is_special "Ariyalur rainfall in 2020" = false /\
   Forall (fun c => real_position (ctx_texts sample_context) (fst c))
     (below_threshold d_one (zip [1%Z; 0%Z; (-1)%Z] [(1 # 5)%Q; (7 # 10)%Q; FLT_MAX])) /\
   below_threshold d_one (zip [1%Z; 0%Z; (-1)%Z] [(1 # 5)%Q; (7 # 10)%Q; FLT_MAX]) <> []) /\
  exists picked,
    Forall2 (fun c r => [sample_record; sample_record_dry] !! Z.to_nat (fst c) = Some r)
      (below_threshold d_one (zip [1%Z; 0%Z; (-1)%Z] [(1 # 5)%Q; (7 # 10)%Q; FLT_MAX]))
      picked /\
    status (chat sample_context {[ "query" := JStr "Ariyalur rainfall in 2020" ]}) = 200%Z /\
    reply (chat sample_context {[ "query" := JStr "Ariyalur rainfall in 2020" ]})
    = Composed (TableReply "Ariyalur rainfall in 2020" (map record_row picked)
                  (records_chart (py_in "ariyalur" (normalize "Ariyalur rainfall in 2020"))
                     picked)).
Proof.
  assert (Hfree : Forall (fun r => comma_free r = true) [sample_record; sample_record_dry]).
  { repeat (apply Forall_cons_2; [reflexivity|]). apply Forall_nil_2. }
  assert (Hreal : Forall (fun c => real_position (ctx_texts sample_context) (fst c))
     (below_threshold d_one (zip [1%Z; 0%Z; (-1)%Z] [(1 # 5)%Q; (7 # 10)%Q; FLT_MAX]))).
  { repeat (apply Forall_cons_2; [unfold real_position; simpl; lia|]). apply Forall_nil_2. }
  assert (Hne : "Ariyalur rainfall in 2020" <> "") by discriminate.
  assert (Hsome : below_threshold d_one
            (zip [1%Z; 0%Z; (-1)%Z] [(1 # 5)%Q; (7 # 10)%Q; FLT_MAX]) <> [])
    by discriminate.
  split.
  { split; [reflexivity|]. split; [exact Hfree|]. split; [exact Hne|].
    split; [reflexivity|]. split; [reflexivity|]. split; [exact Hreal | exact Hsome]. }
  exact (chat_answers_with_records sample_context [sample_record; sample_record_dry]
           {[ "query" := JStr "Ariyalur rainfall in 2020" ]} "Ariyalur rainfall in 2020"
           "Ariyalur rainfall in 2020" _ _ eq_refl Hfree eq_refl Hne eq_refl eq_refl
           eq_refl eq_refl Hreal Hsome).
Defined.

(** *** Loading the dataset *)

Section Loading.

Context {F : Type}.

Lemma py_strip_blank (s : string) : all_chars py_isspace s = true -> py_strip s = "".
Proof.
  unfold py_strip. intros Hs.
  assert (Hl : py_lstrip s = "").
  { induction s as [|c s IH]; [reflexivity|]. cbn [all_chars] in Hs.
    apply andb_prop in Hs as [Hc Hs]. cbn [py_lstrip]. rewrite Hc. now apply IH. }
  now rewrite Hl.
Qed.

(** X19. A path that does not exist raises [FileNotFoundError]; a file that
    holds nothing but white space raises [ValueError], the text being
    stripped before it is looked at. In both cases [json.loads] is not
    consulted: the outcome is the same for every parser. *)
Theorem load_data_no_content (files : gmap string string)
    (json_loads : string -> option (json F)) (file_path : string) :
  (files !! file_path = None ->
   load_data files json_loads file_path
   = LoadRaise (FileNotFoundError ("File not found: " +:+ file_path))) /\
  (forall text, files !! file_path = Some text -> all_chars py_isspace text = true ->
   load_data files json_loads file_path
   = LoadRaise (Builtin (ValueError ("File is empty: " +:+ file_path)))).
Proof.
  unfold load_data. split.
  - now intros ->.
  - intros text -> Hblank. now rewrite (py_strip_blank text Hblank).
Qed.

Lemma entry_outputs_loaded (entries outs : list (json F)) :
  entry_outputs entries = Loaded outs <->
  Forall2 (fun entry out => exists members,
             entry = JsObj members /\ member "output" members = Some out)
          entries outs.
Proof.
  revert outs. induction entries as [|entry entries IH]; intros outs; cbn [entry_outputs].
  - split; [intros [= <-]; constructor | intros Hall; now inversion Hall].
  - split.
    + destruct (entry_output entry) as [out|e] eqn:He; [|discriminate].
      destruct (entry_outputs entries) as [outs'|e]; [|discriminate].
      intros [= <-]. constructor; [|now apply IH].
      unfold entry_output in He. destruct entry; try discriminate.
      destruct (member "output" members) as [v|] eqn:Hm; [|discriminate].
      injection He as <-. now exists members.
    + intros Hall. inversion Hall as [|? out ? outs' (members & -> & Hm) Hrest]; subst.
      cbn [entry_output]. rewrite Hm.
      apply IH in Hrest. now rewrite Hrest.
Qed.

(** X20. A dataset file that holds an array is loaded exactly when every entry is
    an object with an [output] member; the result then has one value per
    entry, in order, that member's. One entry of another kind or without
    [output] and nothing is loaded. *)
Theorem load_data_array (files : gmap string string)
    (json_loads : string -> option (json F)) (file_path text : string)
    (entries : list (json F)) :
  files !! file_path = Some text ->
  py_strip text <> "" ->
  json_loads (py_strip text) = Some (JsArr entries) ->
  (forall outs,
     load_data files json_loads file_path = Loaded outs <->
     Forall2 (fun entry out => exists members,
                entry = JsObj members /\ member "output" members = Some out)
             entries outs) /\
  (forall outs, load_data files json_loads file_path = Loaded outs ->
     length outs = length entries).
Proof.
  intros Hf Hne Hj. unfold load_data. rewrite Hf.
  apply String.eqb_neq in Hne. rewrite Hne, Hj. cbn [py_entries].
  split.
  - intros outs. apply entry_outputs_loaded.
  - intros outs Hl. apply entry_outputs_loaded in Hl.
    symmetry. eapply Forall2_length. eassumption.
Qed.

(** X21. A dataset file that holds an object instead of an array: the
    comprehension runs over its keys, which are strings and cannot be
    indexed by ['output'], so anything but the empty object raises
    [TypeError]; the empty object loads as the empty dataset. *)
Theorem load_data_object (files : gmap string string)
    (json_loads : string -> option (json F)) (file_path text : string)
    (members : list (string * json F)) :
  files !! file_path = Some text ->
  py_strip text <> "" ->
  json_loads (py_strip text) = Some (JsObj members) ->
  (members = [] -> load_data files json_loads file_path = Loaded []) /\
  (members <> [] -> exists msg,
     load_data files json_loads file_path = LoadRaise (TypeError msg)).
Proof.
  intros Hf Hne Hj. unfold load_data. rewrite Hf.
  apply String.eqb_neq in Hne. rewrite Hne, Hj. cbn [py_entries].
  split.
  - now intros ->.
  - destruct members as [|[k v] members]; [congruence|]. intros _.
    cbn. now eexists.
Qed.

End Loading.

Lemma load_data_no_content_witness :
  (sample_files !! "missing.json" = None /\
   load_data sample_files sample_loads "missing.json"
   = LoadRaise (FileNotFoundError "File not found: missing.json")) /\
  (sample_files !! "blank.json" = Some "  " /\ all_chars py_isspace "  " = true /\
   load_data sample_files sample_loads "blank.json"
   = LoadRaise (Builtin (ValueError "File is empty: blank.json"))).
Proof.
  split.
  - split; [reflexivity|].
    exact (proj1 (load_data_no_content sample_files sample_loads "missing.json") eq_refl).
  - split; [reflexivity|]. split; [reflexivity|].
    exact (proj2 (load_data_no_content sample_files sample_loads "blank.json")
             "  " eq_refl eq_refl).
Defined.

Lemma load_data_array_witness :
  (sample_files !! "data.json" = Some " [entries] " /\
   py_strip " [entries] " <> "" /\
   sample_loads (py_strip " [entries] ") = Some (JsArr sample_entries)) /\
  (forall outs,
     load_data sample_files sample_loads "data.json" = Loaded outs <->
     Forall2 (fun entry out => exists members,
                entry = JsObj members /\ member "output" members = Some out)
             sample_entries outs) /\
  (forall outs, load_data sample_files sample_loads "data.json" = Loaded outs ->
     length outs = length sample_entries).
Proof.
  assert (Hne : py_strip " [entries] " <> "") by discriminate.
  split; [split; [reflexivity | split; [exact Hne | reflexivity]]|].
  exact (load_data_array sample_files sample_loads "data.json" " [entries] "
           sample_entries eq_refl Hne eq_refl).
Defined.

Lemma load_data_object_witness :
  (sample_files !! "data.json" = Some " [entries] " /\
   py_strip " [entries] " <> "" /\
   sample_loads_object (py_strip " [entries] ")
   = Some (JsObj [("output", JsObj [("district", JsStr "Ariyalur")])])) /\
  ([("output", JsObj [("district", JsStr (F:=sample_float) "Ariyalur")])] = [] ->
   load_data sample_files sample_loads_object "data.json" = Loaded []) /\
  ([("output", JsObj [("district", JsStr (F:=sample_float) "Ariyalur")])] <> [] ->
   exists msg,
     load_data sample_files sample_loads_object "data.json" = LoadRaise (TypeError msg)).
Proof.
  assert (Hne : py_strip " [entries] " <> "") by discriminate.
  split; [split; [reflexivity | split; [exact Hne | reflexivity]]|].
  exact (load_data_object sample_files sample_loads_object "data.json" " [entries] "
           _ eq_refl Hne eq_refl).
Defined.

(** The sample file loads as the two [output] objects of its entries. *)
Example sample_load :
  load_data sample_files sample_loads "data.json"
  = Loaded [JsObj [("district", JsStr "Ariyalur"); ("year", JsInt 2020)];
            JsObj [("district", JsStr "Ariyalur"); ("year", JsInt 2030)]].
Proof. vm_compute. reflexivity. Qed.
